(** * text_distortion_augment: beam decoder and training orchestrator

    A shallow embedding of [src/model/model.py] (the [shift_tokens_right]
    transform and [TransformerModel.generate]) and of the training loop of
    [src/task/training.py], with the properties of the specification stated
    and settled against it.

    Conventions.
    - Python exceptions are values of [exn]; a computation that may raise
      has type [result A].
    - Token ids are [Z]; a 2-D integer tensor carries its column count, so
      that the shape (N, 0) is distinguished from (0, L).
    - Floating-point scores are kept abstract: the decoder sections are
      parameterised by the score type and its operations, and instantiated
      with rationals where a run on concrete numbers is wanted.
    - A Python name that is a local of a function is a Rocq binder; a name
      the function never assigns is looked up in the module's globals. *)

From Stdlib Require Import ZArith QArith Qround.
From stdpp Require Import gmap strings list.

Local Open Scope Z_scope.

(** ** Python exceptions and the error monad *)

Inductive exn : Type :=
| NameError (name : string)
| UnboundLocalError (name : string)
| KeyError (key : string)
| IndexError (msg : string)
| ValueError (msg : string)
| RuntimeError (msg : string)
| AttributeError (attr : string)
| ZeroDivisionError
| StopIteration.

Inductive result (A : Type) : Type :=
| Ok (a : A)
| Raise (e : exn).
Arguments Ok {A} a.
Arguments Raise {A} e.

#[global] Instance result_ret : MRet result := λ A a, Ok a.
#[global] Instance result_bind : MBind result :=
  λ A B f m, match m with Ok a => f a | Raise e => Raise e end.
#[global] Instance result_fmap : FMap result :=
  λ A B f m, match m with Ok a => Ok (f a) | Raise e => Raise e end.

Definition is_ok {A} (m : result A) : bool :=
  match m with Ok _ => true | Raise _ => false end.

(** A row lookup that raises like tensor indexing does. *)
Definition index {A} (l : list A) (i : nat) : result A :=
  match l !! i with
  | Some a => Ok a
  | None => Raise (IndexError "index out of range")
  end.

(** [for x in xs: st = body(st, x)], stopping at the first exception. *)
Fixpoint for_each {S X} (body : S → X → result S) (st : S) (xs : list X)
  : result S :=
  match xs with
  | [] => Ok st
  | x :: xs' => st' ← body st x; for_each body st' xs'
  end.

(** ** [shift_tokens_right] (model.py, lines 270-283) *)

Module Shift.

(** A tensor of shape (N, cols): [rows] has N entries of length [cols]. *)
Record tensor : Type := Tensor { cols : nat; rows : list (list Z) }.

Definition wf (t : tensor) : Prop :=
  Forall (λ r, length r = cols t) (rows t).

Definition wfb (t : tensor) : bool :=
  forallb (λ r, Nat.eqb (length r) (cols t)) (rows t).

(** [input_ids.new_zeros(input_ids.shape)] *)
Definition new_zeros (t : tensor) : tensor :=
  Tensor (cols t) (map (λ _, replicate (cols t) 0) (rows t)).

(** [dst[1:] = src[:-1]] on one row. *)
Definition assign_tail (dst src : list Z) : list Z :=
  take 1 dst ++ take (length src - 1) src.

(** [row[0] = v] on one row of a tensor with at least one column. *)
Definition assign_head (v : Z) (row : list Z) : list Z := <[0%nat := v]> row.

(** [masked_fill_(row == -100, pad)] on one row. *)
Definition fill (pad : Z) (x : Z) : Z := if Z.eqb x (-100) then pad else x.

Definition shift_tokens_right
    (input_ids : tensor) (pad_token_id : option Z) (decoder_start_token_id : Z)
  : result tensor :=
  let shifted := new_zeros input_ids in
  let shifted :=
    Tensor (cols shifted) (zip_with assign_tail (rows shifted) (rows input_ids)) in
  shifted ←
    (if Nat.eqb (cols shifted) 0
     then Raise (IndexError "index 0 is out of bounds for dimension 1 with size 0")
     else Ok (Tensor (cols shifted)
                (map (assign_head decoder_start_token_id) (rows shifted))));
  match pad_token_id with
  | None => Raise (ValueError "self.model.config.pad_token_id has to be defined.")
  | Some pad => Ok (Tensor (cols shifted) (map (map (fill pad)) (rows shifted)))
  end.

(** What one row becomes: the start token, then the row without its last
    entry, with every -100 replaced by the pad id. *)
Definition shifted_row (pad start : Z) (r : list Z) : list Z :=
  map (fill pad) (start :: removelast r).

(** The transform applied to its own output. *)
Definition shift_twice (input_ids : tensor) (pad_token_id : option Z)
    (decoder_start_token_id : Z) : result tensor :=
  once ← shift_tokens_right input_ids pad_token_id decoder_start_token_id;
  shift_tokens_right once pad_token_id decoder_start_token_id.

End Shift.

(** ** [TransformerModel.generate] (model.py, lines 126-223) *)

Module Generate.

(** Arithmetic of torch float tensors and Python floats, as far as the
    decoder uses it. *)
Class ScoreOps (score : Type) : Type := {
  s_zero : score;
  s_neg_inf : score;
  s_of_nat : nat → score;
  s_add : score → score → score;
  s_mul : score → score → score;
  s_div : score → score → score;
  s_pow : score → score → score;
  s_ltb : score → score → bool;
  s_eqb : score → score → bool;
}.

(** [<] on scores that are numbers: a strict weak order. *)
Class ScoreOrder {score : Type} (ops : ScoreOps score) : Prop := {
  s_ltb_irrefl : ∀ a, s_ltb a a = false;
  s_ltb_trans : ∀ a b c, s_ltb a b = true → s_ltb b c = true → s_ltb a c = true;
  s_ltb_neg_trans :
    ∀ a b c, s_ltb a b = false → s_ltb b c = false → s_ltb a c = false;
}.

(** What a module-level name can be bound to. *)
Inductive pyobj : Type :=
| PyModule
| PyClass
| PyFunction
| PyTensor (shape : list nat) (ident : nat).

(** The globals of [model/model.py] once the module is imported: its
    imports (lines 1-13) and its top-level classes and functions. *)
Definition module_globals : gmap string pyobj :=
  list_to_map
    [ ("math", PyModule); ("defaultdict", PyClass); ("torch", PyModule);
      ("nn", PyModule); ("Variable", PyClass); ("autocast", PyClass);
      ("F", PyModule); ("PretrainedConfig", PyClass); ("AutoModel", PyClass);
      ("AutoTokenizer", PyClass); ("return_model_name", PyFunction);
      ("model_setting", PyFunction); ("TransformerModel", PyClass);
      ("ClassifierModel", PyClass);
      ("_prepare_bart_decoder_inputs", PyFunction);
      ("shift_tokens_right", PyFunction); ("make_padding_mask", PyFunction);
      ("invert_mask", PyFunction); ("fill_with_neg_inf", PyFunction);
      ("PositionalEmbedding", PyClass) ]%string.

(** The parameters of [generate] (line 126) and the names its body assigns:
    together, its local names. Every other name is read from the globals. *)
Definition generate_params : list string :=
  [ "self"; "encoder_out"; "attention_mask"; "beam_size"; "beam_alpha";
    "repetition_penalty"; "device" ]%string.

Definition generate_assigned : list string :=
  [ "batch_size"; "src_seq_size"; "encoder_out_dict"; "every_batch";
    "hidden_states"; "src_key_padding_mask"; "scores_save"; "top_k_scores";
    "complete_seqs"; "complete_ind"; "seqs"; "step"; "decoder_outputs";
    "scores"; "next_ix"; "ix_"; "top_k_words"; "prev_word_inds";
    "next_word_inds"; "eos_ind"; "complete_ind_add"; "ix"; "score_save_pos";
    "lp"; "_"; "ind"; "ind_expand"; "predicted" ]%string.

Definition is_local (name : string) : bool :=
  bool_decide (name ∈ generate_params ++ generate_assigned).

(** Reading a name that is not a local of the function. *)
Definition load_global (G : gmap string pyobj) (name : string) : result pyobj :=
  match G !! name with
  | Some v => Ok v
  | None => Raise (NameError name)
  end.

(** [t.size(d)] *)
Definition size (t : pyobj) (d : nat) : result nat :=
  match t with
  | PyTensor shape _ =>
      match shape !! d with
      | Some n => Ok n
      | None => Raise (IndexError "Dimension out of range")
      end
  | _ => Raise (AttributeError "size")
  end.

(** [torch.arange(0, stop, step)] for a positive [step]. *)
Fixpoint arange_from (start step count : nat) : list nat :=
  match count with
  | O => []
  | S c => start :: arange_from (start + step) step c
  end.

Definition arange (stop step : nat) : result (list nat) :=
  if Nat.eqb step 0 then Raise (RuntimeError "arange: step must be nonzero")
  else Ok (arange_from 0 step (Nat.div (stop + step - 1) step)).

(** [xs[::k]] *)
Fixpoint stride_from {A} (k skip : nat) (xs : list A) : list A :=
  match xs with
  | [] => []
  | x :: xs' =>
      match skip with
      | O => x :: stride_from k (k - 1) xs'
      | S s => stride_from k s xs'
      end
  end.

Definition stride {A} (k : nat) (xs : list A) : list A := stride_from k 0 xs.

(** Cutting a flat list into rows of [w] entries ([view(n, -1)]). *)
Fixpoint chunks {A} (w n : nat) (xs : list A) : list (list A) :=
  match n with
  | O => []
  | S n' => take w xs :: chunks w n' (drop w xs)
  end.

Definition view_rows {A} (n : nat) (m : list (list A)) : result (list (list A)) :=
  let flat := concat m in
  if Nat.eqb n 0 || negb (Nat.eqb (Nat.modulo (length flat) n) 0)
  then Raise (RuntimeError "view: shape is invalid for input size")
  else Ok (chunks (Nat.div (length flat) n) n flat).

Section Decoder.
Context {score : Type} `{ops : ScoreOps score}.
(** Encoder-side tensors ([encoder_out], [attention_mask]) are opaque. *)
Context {T : Type}.

(** [self]: the attributes [generate] reads, and the sub-modules it calls.
    [decoder] is [self.decoder(...)['last_hidden_state']]; [score_head] is
    lines 165-167 applied to the object it is given: the last entry,
    [decoder_linear], gelu, [decoder_norm], [decoder_augmenter] and
    log-softmax. *)
Record model : Type := Model {
  src_max_len : nat;
  vocab_num : nat;
  d_hidden : nat;
  eos_idx : nat;
  decoder_start_token_id : nat;
  decoder : list (list nat) → T → T → pyobj;
  score_head : pyobj → result (list (list score));
  expand_mask : nat → nat → nat → T → result T;
  expand_hidden : nat → nat → nat → T → result T;
}.

(** The variables the decoding loop carries from one step to the next.
    [top_k_scores] and [scores_save] have shape (batch_size * k, 1) and
    are kept flat. [next_word_inds] is unbound before the first step. *)
Record loop_state : Type := LoopState {
  seqs : list (list nat);
  top_k_scores : list score;
  scores_save : list score;
  complete_seqs : gmap nat (list nat);
  complete_ind : gset nat;
  next_word_inds : option (list nat);
}.

(** An in-place update made by the repetition penalty at [scores[ix][tok]]. *)
Inductive penalty_update : Type :=
| Multiplied (ix tok : nat)
| Divided (ix tok : nat).

(** Lines 173-176 for one slot. *)
Definition penalise (repetition_penalty : score)
    (acc : list (list score) * list penalty_update) (ix_tok : nat * nat)
  : result (list (list score) * list penalty_update) :=
  let '(scores, log) := acc in
  let '(ix_, tok) := ix_tok in
  row ← index scores ix_;
  s ← index row tok;
  if s_ltb s s_zero
  then Ok (<[ix_ := <[tok := s_mul s repetition_penalty]> row]> scores,
           log ++ [Multiplied ix_ tok])
  else Ok (<[ix_ := <[tok := s_div s repetition_penalty]> row]> scores,
           log ++ [Divided ix_ tok]).

(** Lines 169-176. Returns the scores and the updates it made to them. *)
Definition repetition_penalty_block (step : nat) (repetition_penalty : score)
    (next_word_inds : option (list nat)) (scores : list (list score))
  : result (list (list score) * list penalty_update) :=
  if Nat.leb 1 step && negb (s_eqb repetition_penalty s_zero) then
    next_ix ← match next_word_inds with
              | Some l => Ok l
              | None => Raise (UnboundLocalError "next_word_inds")
              end;
    for_each (penalise repetition_penalty) (scores, [])
             (zip (seq 0 (length next_ix)) next_ix)
  else Ok (scores, []).

(** [top_k_scores.expand_as(scores) + scores] (line 179). *)
Definition expand_add (top_k_scores : list score) (scores : list (list score))
  : result (list (list score)) :=
  match top_k_scores with
  | [c] => Ok (map (map (s_add c)) scores)
  | _ =>
      if Nat.eqb (length top_k_scores) (length scores)
      then Ok (zip_with (λ c row, map (s_add c) row) top_k_scores scores)
      else Raise (RuntimeError "expand_as: sizes do not match")
  end.

(** [scores[:, col] = v] (line 182). *)
Definition set_column (col : nat) (v : score) (scores : list (list score))
  : result (list (list score)) :=
  for_each (λ acc row,
              if Nat.ltb col (length row) then Ok (acc ++ [<[col := v]> row])
              else Raise (IndexError "index is out of bounds for dimension 1"))
           [] scores.

(** The first largest entry of a list of candidates, and the rest. *)
Fixpoint select_max (best : nat * score) (seen rest : list (nat * score))
  : (nat * score) * list (nat * score) :=
  match rest with
  | [] => (best, seen)
  | x :: rest' =>
      if s_ltb (snd best) (snd x)
      then select_max x (seen ++ [best]) rest'
      else select_max best (seen ++ [x]) rest'
  end.

(** [row.topk(k, largest=True, sorted=True)]: the k largest entries with
    their positions, largest first. *)
Fixpoint topk_of (k : nat) (cands : list (nat * score)) : list (nat * score) :=
  match k, cands with
  | S k', c :: cands' =>
      let '(m, rest) := select_max c [] cands' in m :: topk_of k' rest
  | _, _ => []
  end.

Definition topk (k : nat) (row : list score) : result (list (nat * score)) :=
  if Nat.ltb (length row) k
  then Raise (RuntimeError "selected index k out of range")
  else Ok (topk_of k (zip (seq 0 (length row)) row)).

(** [scores.topk(k, 1, True, True)] on every row: (values, indices). *)
Definition topk_rows (k : nat) (scores : list (list score))
  : result (list (list score) * list (list nat)) :=
  for_each (λ acc row,
              picks ← topk k row;
              Ok (acc.1 ++ [map snd picks], acc.2 ++ [map fst picks]))
           ([], []) scores.

(** [max(1)] over one example's k candidates: position of the first
    largest entry. *)
Definition argmax (row : list score) : result nat :=
  match row with
  | [] => Raise (IndexError "max(): cannot reduce over an empty dimension")
  | x :: row' =>
      Ok (fst (fst (select_max (0%nat, x) [] (zip (seq 1 (length row')) row'))))
  end.

(** Positions of the flat [next_word_inds] that hold the end-of-sequence
    token ([torch.where(next_word_inds.view(-1) == self.eos_idx)]). *)
Definition eos_positions (eos : nat) (next : list nat) : list nat :=
  map fst (filter (λ iw, snd iw = eos) (zip (seq 0 (length next)) next)).

(** [dst[ixs] = src[ixs]] *)
Definition scatter {A} (src dst : list A) (ixs : list nat) : result (list A) :=
  for_each (λ acc ix,
              v ← index src ix;
              if Nat.ltb ix (length acc) then Ok (<[ix := v]> acc)
              else Raise (IndexError "index out of range"))
           dst ixs.

(** [for ix in ixs: complete_seqs[ix] = seqs[ix].tolist()] *)
Definition store_seqs (seqs : list (list nat)) (complete_seqs : gmap nat (list nat))
    (ixs : list nat) : result (gmap nat (list nat)) :=
  for_each (λ acc ix, row ← index seqs ix; Ok (<[ix := row]> acc))
           complete_seqs ixs.

(** Lines 195-205: record the slots that have just chosen the
    end-of-sequence token. *)
Definition save_complete (eos : nat) (st : loop_state) (next : list nat)
  : result loop_state :=
  if bool_decide (eos ∈ next) then
    let eos_ind := eos_positions eos next in
    let complete_ind_add : list nat :=
      elements (list_to_set eos_ind ∖ complete_ind st : gset nat) in
    let complete_ind' := complete_ind st ∪ list_to_set eos_ind in
    if Nat.ltb 0 (length complete_ind_add) then
      scores_save' ← scatter (top_k_scores st) (scores_save st) complete_ind_add;
      complete_seqs' ← store_seqs (seqs st) (complete_seqs st) complete_ind_add;
      Ok (LoopState (seqs st) (top_k_scores st) scores_save' complete_seqs'
            complete_ind' (next_word_inds st))
    else
      Ok (LoopState (seqs st) (top_k_scores st) (scores_save st)
            (complete_seqs st) complete_ind' (next_word_inds st))
  else Ok st.

(** A flat tensor that must have exactly [n] entries to be viewed as
    (n, 1). *)
Definition view_flat {A} (n : nat) (m : list (list A)) : result (list A) :=
  if Nat.eqb (length (concat m)) n then Ok (concat m)
  else Raise (RuntimeError "view: shape is invalid for input size").

(** Elementwise sum of two index vectors of the same length. *)
Definition add_indices (a b : list nat) : result (list nat) :=
  if Nat.eqb (length a) (length b) then Ok (zip_with Nat.add a b)
  else Raise (RuntimeError "size of tensor a must match the size of tensor b").

(** [every_batch.unsqueeze(1).repeat(1, beam_size).view(-1)] *)
Definition repeat_each (beam_size : nat) (every_batch : list nat) : list nat :=
  concat (map (replicate beam_size) every_batch).

(** One iteration of the loop at line 155 (lines 156-205). *)
Definition decode_step (G : gmap string pyobj) (self : model)
    (hidden_states src_key_padding_mask : T) (beam_size batch_size : nat)
    (every_batch : list nat) (repetition_penalty : score)
    (st : loop_state) (step : nat) : result loop_state :=
  let decoder_outputs :=
    decoder self (seqs st) hidden_states src_key_padding_mask in
  decoder_out ← load_global G "decoder_out";
  scores ← score_head self decoder_out;
  penalised ← repetition_penalty_block step repetition_penalty
                (next_word_inds st) scores;
  scores ← expand_add (top_k_scores st) penalised.1;
  top ← (if Nat.eqb step 0 then
           scores ← set_column (eos_idx self) s_neg_inf (stride beam_size scores);
           topk_rows beam_size scores
         else
           scores ← view_rows batch_size scores;
           topk_rows beam_size scores);
  let top_k_words := top.2 in
  _ ← (if Nat.eqb (vocab_num self) 0
       then Raise (RuntimeError "ZeroDivisionError") else Ok tt);
  let prev_word_inds := map (map (λ w, Nat.div w (vocab_num self))) top_k_words in
  let next_word_inds := map (map (λ w, Nat.modulo w (vocab_num self))) top_k_words in
  top_k_scores' ← view_flat (batch_size * beam_size) top.1;
  gather ← add_indices (concat prev_word_inds) (repeat_each beam_size every_batch);
  seqs' ← for_each (λ acc i, row ← index (seqs st) i; Ok (acc ++ [row])) [] gather;
  next ← view_flat (beam_size * batch_size) next_word_inds;
  _ ← (if Nat.eqb (length seqs') (length next) then Ok tt
       else Raise (RuntimeError "cat: sizes of tensors must match"));
  let seqs'' := zip_with (λ s w, s ++ [w]) seqs' next in
  save_complete (eos_idx self)
    (LoopState seqs'' top_k_scores' (scores_save st) (complete_seqs st)
       (complete_ind st) (Some next))
    next.

(** Lines 207-212: slots whose saved score is still 0. *)
Definition zero_positions (scores_save : list score) : list nat :=
  map fst (filter (λ p, s_eqb (snd p) s_zero = true)
             (zip (seq 0 (length scores_save)) scores_save)).

Definition fallback (st : loop_state) : result loop_state :=
  if existsb (λ s, s_eqb s s_zero) (scores_save st) then
    let score_save_pos := zero_positions (scores_save st) in
    complete_seqs' ← store_seqs (seqs st) (complete_seqs st) score_save_pos;
    scores_save' ← scatter (top_k_scores st) (scores_save st) score_save_pos;
    Ok (LoopState (seqs st) (top_k_scores st) scores_save' complete_seqs'
          (complete_ind st) (next_word_inds st))
  else Ok st.

(** [complete_seqs[i]] on a [defaultdict(list)]. *)
Definition stored_seq (complete_seqs : gmap nat (list nat)) (i : nat) : list nat :=
  default [] (complete_seqs !! i).

(** Line 216 for one slot whose stored sequence has [len] tokens. *)
Definition length_penalty (beam_size : nat) (beam_alpha : score) (len : nat)
  : score :=
  s_div (s_pow (s_of_nat (len + beam_size)) beam_alpha)
        (s_pow (s_of_nat (beam_size + 1)) beam_alpha).


(** Lines 214-217: every saved score divided by its length penalty. *)
Definition normalize (beam_size batch_size : nat) (beam_alpha : score)
    (st : loop_state) : result (list score) :=
  let lp := map (λ i, length_penalty beam_size beam_alpha
                        (length (stored_seq (complete_seqs st) i)))
                (seq 0 (batch_size * beam_size)) in
  if Nat.eqb (length (scores_save st)) (length lp)
  then Ok (zip_with s_div (scores_save st) lp)
  else Raise (RuntimeError "size of tensor a must match the size of tensor b").

(** Lines 219-222: the winner of every example. *)
Definition select (beam_size batch_size : nat) (every_batch : list nat)
    (normalized : list score) (complete_seqs : gmap nat (list nat))
  : result (list (list nat)) :=
  _ ← (if Nat.eqb (length normalized) (batch_size * beam_size) then Ok tt
       else Raise (RuntimeError "view: shape is invalid for input size"));
  ind ← for_each (λ acc row, i ← argmax row; Ok (acc ++ [i])) []
          (chunks beam_size batch_size normalized);
  ind_expand ← add_indices ind every_batch;
  Ok (map (stored_seq complete_seqs) ind_expand).

(** Lines 207-223. *)
Definition finalize (beam_size batch_size : nat) (every_batch : list nat)
    (beam_alpha : score) (st : loop_state) : result (list (list nat)) :=
  st ← fallback st;
  normalized ← normalize beam_size batch_size beam_alpha st;
  select beam_size batch_size every_batch normalized (complete_seqs st).

(** Lines 146-153: the state the loop starts from. *)
Definition initial_state (self : model) (beam_size batch_size : nat) : loop_state :=
  LoopState (replicate (beam_size * batch_size) [decoder_start_token_id self])
    (replicate (beam_size * batch_size) s_zero)
    (replicate (beam_size * batch_size) s_zero)
    ∅ ∅ None.

(** The loop at line 155 from a given state. *)
Definition decode_loop (G : gmap string pyobj) (self : model)
    (hidden_states src_key_padding_mask : T) (beam_size batch_size : nat)
    (every_batch : list nat) (repetition_penalty : score) (st : loop_state)
    (steps : list nat) : result loop_state :=
  for_each (decode_step G self hidden_states src_key_padding_mask beam_size
              batch_size every_batch repetition_penalty) st steps.

(** The body of [generate], run with the module globals [G]. [input_ids]
    (lines 128-129) and [decoder_out] (line 165) are not locals of the
    function, so they are read from [G]. *)
Definition generate_in (G : gmap string pyobj) (self : model)
    (encoder_out attention_mask : T) (beam_size : nat)
    (beam_alpha repetition_penalty : score) : result (list (list nat)) :=
  input_ids ← load_global G "input_ids";
  batch_size ← size input_ids 0;
  input_ids ← load_global G "input_ids";
  src_seq_size ← size input_ids 1;
  every_batch ← arange (beam_size * batch_size) beam_size;
  src_key_padding_mask ←
    expand_mask self batch_size beam_size src_seq_size attention_mask;
  hidden_states ←
    expand_hidden self batch_size beam_size src_seq_size encoder_out;
  st ← decode_loop G self hidden_states src_key_padding_mask beam_size
         batch_size every_batch repetition_penalty
         (initial_state self beam_size batch_size)
         (seq 0 (src_max_len self));
  finalize beam_size batch_size every_batch beam_alpha st.

(** [TransformerModel.generate] as the module defines it. *)
Definition generate : model → T → T → nat → score → score → result (list (list nat)) :=
  generate_in module_globals.

End Decoder.

(** *** Scores as exact rationals

    An instance for running the decoder on concrete numbers: rationals
    with a least element for minus infinity. Sums, products, quotients and
    comparisons are exact; the exponent of a power is rounded down to an
    integer, so the instance follows the code for integer [beam_alpha]. *)
Inductive qscore : Type :=
| NegInf
| Fin (q : Q).

Definition q_lift (f : Q → Q → Q) (a b : qscore) : qscore :=
  match a, b with
  | Fin x, Fin y => Fin (Qred (f x y))
  | _, _ => NegInf
  end.

Definition q_ltb (a b : qscore) : bool :=
  match a, b with
  | NegInf, Fin _ => true
  | Fin x, Fin y => negb (Qle_bool y x)
  | _, NegInf => false
  end.

Definition q_eqb (a b : qscore) : bool :=
  match a, b with
  | NegInf, NegInf => true
  | Fin x, Fin y => Qeq_bool x y
  | _, _ => false
  end.

#[global] Instance qscore_ops : ScoreOps qscore := {|
  s_zero := Fin 0;
  s_neg_inf := NegInf;
  s_of_nat n := Fin (inject_Z (Z.of_nat n));
  s_add := q_lift Qplus;
  s_mul := q_lift Qmult;
  s_div := q_lift Qdiv;
  s_pow := q_lift (λ x a, Qpower x (Qfloor a));
  s_ltb := q_ltb;
  s_eqb := q_eqb;
|}.

(** *** A small decoder to run

    Vocabulary 0..3 with 0 = pad, 1 = start, 2 = end of sequence. The
    score head gives every slot the same row, in which the end-of-sequence
    token is never among the two best. *)
Definition toy_scores (eos_score : Q) (rows : nat) : list (list qscore) :=
  replicate rows [Fin (-5); Fin (-4); Fin eos_score; Fin (-1)].

Definition toy_model (eos_score : Q) (max_len : nat) : @model qscore unit :=
  Model max_len 4 8 2 1
    (λ _ _ _, PyTensor [4; 1; 8]%nat 2)
    (λ o, match o with
          | PyTensor (rows :: _) _ => Ok (toy_scores eos_score rows)
          | _ => Raise (IndexError "index -1 is out of bounds")
          end)
    (λ _ _ _ t, Ok t)
    (λ _ _ _ t, Ok t).

(** The module globals with the two missing names bound: [input_ids] to a
    batch of two sequences of five tokens, [decoder_out] to a tensor with
    four rows. *)
Definition patched_globals : gmap string pyobj :=
  <["decoder_out"%string := PyTensor [4; 1; 8]%nat 1]>
    (<["input_ids"%string := PyTensor [2; 5]%nat 0]> module_globals).

(** A state in which slot 1 has completed with score -4 and sequence
    [1;3;2], and slot 0 has not. *)
Definition one_complete : @loop_state qscore :=
  LoopState [[1; 3; 3; 3]; [1; 3; 1; 2]]%nat [Fin (-3); Fin (-9)]
    [Fin 0; Fin (-4)] {[ 1%nat := [1; 3; 2]%nat ]} {[ 1%nat ]}
    (Some [3; 2]%nat).

(** The run of [toy_model (-3) 3] on a batch of two with beam size 2: the
    states after steps 0, 1 and 2. Slots 1 and 3 choose the end-of-sequence
    token at step 1, and again at step 2. *)
Definition toy_step0 : @loop_state qscore :=
  LoopState [[1; 3]; [1; 1]; [1; 3]; [1; 1]]%nat
    [Fin (-1); Fin (-4); Fin (-1); Fin (-4)]
    [Fin 0; Fin 0; Fin 0; Fin 0] ∅ ∅ (Some [3; 1; 3; 1]%nat).

Definition toy_step1 : @loop_state qscore :=
  LoopState [[1; 3; 3]; [1; 3; 2]; [1; 3; 3]; [1; 3; 2]]%nat
    [Fin (-2); Fin (-4); Fin (-2); Fin (-4)]
    [Fin 0; Fin (-4); Fin 0; Fin (-4)]
    (<[1%nat := [1; 3; 2]%nat]> {[ 3%nat := [1; 3; 2]%nat ]})
    {[ 1%nat; 3%nat ]} (Some [3; 2; 3; 2]%nat).

Definition toy_step2 : @loop_state qscore :=
  LoopState [[1; 3; 3; 3]; [1; 3; 3; 2]; [1; 3; 3; 3]; [1; 3; 3; 2]]%nat
    [Fin (-3); Fin (-5); Fin (-3); Fin (-5)]
    [Fin 0; Fin (-4); Fin 0; Fin (-4)]
    (<[1%nat := [1; 3; 2]%nat]> {[ 3%nat := [1; 3; 2]%nat ]})
    {[ 1%nat; 3%nat ]} (Some [3; 2; 3; 2]%nat).


End Generate.

(** ** The training orchestrator ([training], training.py) *)

Module Training.

(** A numpy array or integer tensor of shape (N, L), by rows. *)
Definition array : Type := list (list Z).

(** What a data loader yields: the tuple unpacked at lines 216 and 247. *)
Record Batch : Type := MkBatch {
  b_sequence : array;
  b_att : array;
  b_seg : array;
  b_label : array;
}.

(** A [DataLoader]. With [shuffle=True] every [iter(...)] yields the
    batches in an order of its own: [pass n] is what the n-th iterator
    created by the run yields. *)
Record DataLoader : Type := MkLoader { pass : nat → list Batch }.

(** *** Tensors and losses as computation graphs

    Model outputs and loss values are floating-point tensors. They are kept
    as the expression that computes them, which is what [backward] walks. *)
Inductive tensor_expr : Type :=
| ClsLogit (ids att seg : array)        (* cls_model(src_input_ids=.., ..) *)
| AugDecoderOut (ids att seg : array)   (* aug_model(..)[1] *)
| AugZ (ids att seg : array)            (* aug_model(..)[2] *)
| ViewRows (n : nat) (t : tensor_expr)  (* t.view(n, -1) *)
| ViewCols (n : nat) (t : tensor_expr)  (* t.view(-1, n) *)
| Full (rows cols : nat) (v : Q)        (* torch.full((rows, cols), v) *)
| Softmax (t : tensor_expr)
| Sub (a b : tensor_expr)
| Exp (t : tensor_expr)
| NoGrad (t : tensor_expr).             (* computed under torch.no_grad() *)

Inductive loss : Type :=
| cls_loss (input : tensor_expr) (target : array)
| recon_loss (ignore_index : Z) (input : tensor_expr) (target : list Z)
| MaximumMeanDiscrepancy (z : tensor_expr)
| Times (l : loss) (c : Z)
| DividedBy (l : loss) (n : nat)
| Plus (a b : loss)
| Mean (t : tensor_expr)
| Scaled (l : loss).                    (* scaler.scale(l) *)

Inductive phase : Type := Cls | Aug.

(** The effects of the loop on its collaborators, in order. *)
Inductive event : Type :=
| ZeroGrad (p : phase)
| Backward (l : loss)
| ScalerStep (p : phase)
| ScalerUpdate
| SchedulerStep (p : phase)
| WriteLog (epoch freq : nat).

(** [args] and the values fixed before the loop. *)
Record config : Type := MkConfig {
  num_grad_accumulate : nat;
  batch_size : nat;
  print_freq : nat;
  num_labels : nat;
  src_vocab_num : nat;
  pad_idx : Z;
}.

(** The locals of [training] that the inner loop (lines 199-303) reads and
    writes. The four names unpacked at line 216 are bound together, so they
    are kept as the batch they come from. *)
Record loop_vars : Type := MkVars {
  cls_train_iter : list Batch;
  aug_train_iter : list Batch;
  iter_calls : nat;
  finish_epoch : bool;
  freq : nat;
  b_iter : option Batch;
  aug_b_iter : option Batch;
  trace : list event;
}.

Definition set_cls_iter (it : list Batch) (calls : nat) (v : loop_vars) : loop_vars :=
  MkVars it (aug_train_iter v) calls (finish_epoch v) (freq v) (b_iter v)
    (aug_b_iter v) (trace v).

Definition set_aug_iter (it : list Batch) (calls : nat) (fin : bool) (v : loop_vars)
  : loop_vars :=
  MkVars (cls_train_iter v) it calls fin (freq v) (b_iter v) (aug_b_iter v) (trace v).

Definition set_b_iter (b : Batch) (v : loop_vars) : loop_vars :=
  MkVars (cls_train_iter v) (aug_train_iter v) (iter_calls v) (finish_epoch v)
    (freq v) (Some b) (aug_b_iter v) (trace v).

Definition set_aug_b_iter (b : Batch) (v : loop_vars) : loop_vars :=
  MkVars (cls_train_iter v) (aug_train_iter v) (iter_calls v) (finish_epoch v)
    (freq v) (b_iter v) (Some b) (trace v).

Definition emit (evs : list event) (v : loop_vars) : loop_vars :=
  MkVars (cls_train_iter v) (aug_train_iter v) (iter_calls v) (finish_epoch v)
    (freq v) (b_iter v) (aug_b_iter v) (trace v ++ evs).

Definition set_freq (n : nat) (v : loop_vars) : loop_vars :=
  MkVars (cls_train_iter v) (aug_train_iter v) (iter_calls v) (finish_epoch v)
    n (b_iter v) (aug_b_iter v) (trace v).

(** Reading a local of [training] that may not be bound yet. *)
Definition load_local {A} (name : string) (v : option A) : result A :=
  match v with
  | Some a => Ok a
  | None => Raise (UnboundLocalError name)
  end.

(** [body] run [n] times ([for _ in range(n)]). *)
Fixpoint repeat_n {S} (n : nat) (body : S → result S) (st : S) : result S :=
  match n with
  | O => Ok st
  | S n' => st' ← body st; repeat_n n' body st'
  end.

Section Orchestrator.
(** The two data loaders of the training phase. *)
Context (train aug_train : DataLoader).
(** Lines 267-270 and 389-392: greedy token ids of a decoder output,
    detokenised, then tokenised for the classifier. The three arrays are
    the tokenizer's [input_ids], [token_type_ids] and [attention_mask]. *)
Context (retokenize : tensor_expr → array * array * array).
Context (cfg : config).

(** Lines 208-212. *)
Definition next_cls (v : loop_vars) : result (Batch * loop_vars) :=
  match cls_train_iter v with
  | b :: rest => Ok (b, set_cls_iter rest (iter_calls v) v)
  | [] =>
      match pass train (iter_calls v) with
      | b :: rest => Ok (b, set_cls_iter rest (S (iter_calls v)) v)
      | [] => Raise StopIteration
      end
  end.

(** Lines 238-243. *)
Definition next_aug (v : loop_vars) : result (Batch * loop_vars) :=
  match aug_train_iter v with
  | b :: rest => Ok (b, set_aug_iter rest (iter_calls v) (finish_epoch v) v)
  | [] =>
      match pass aug_train (iter_calls v) with
      | b :: rest => Ok (b, set_aug_iter rest (S (iter_calls v)) true v)
      | [] => Raise StopIteration
      end
  end.

(** Lines 206-225: one classifier micro-batch. *)
Definition cls_micro_batch (v : loop_vars) : result loop_vars :=
  fetched ← next_cls v;
  let batch_iter := fetched.1 in
  let v := set_b_iter batch_iter fetched.2 in
  let logit := ClsLogit (b_sequence batch_iter) (b_att batch_iter) (b_seg batch_iter) in
  let cls_loss_ :=
    DividedBy (cls_loss logit (b_label batch_iter)) (num_grad_accumulate cfg) in
  Ok (emit [Backward (Scaled cls_loss_)] v).

(** Lines 219-225: what a classifier micro-batch on batch [b] hands to
    [backward]. *)
Definition cls_backward (b : Batch) : event :=
  Backward (Scaled (DividedBy
    (cls_loss (ClsLogit (b_sequence b) (b_att b) (b_seg b)) (b_label b))
    (num_grad_accumulate cfg))).

(** Lines 259-284: the loss of one augmenter micro-batch, given the
    batch just fetched and the value of the local [src_sequence]. *)
Definition mmd_loss_of (aug_b : Batch) : loss :=
  Times (MaximumMeanDiscrepancy
           (ViewRows (batch_size cfg)
              (AugZ (b_sequence aug_b) (b_att aug_b) (b_seg aug_b)))) 10.

Definition ce_loss_of (aug_b : Batch) (src_sequence : array) : loss :=
  recon_loss (pad_idx cfg)
    (ViewCols (src_vocab_num cfg)
       (AugDecoderOut (b_sequence aug_b) (b_att aug_b) (b_seg aug_b)))
    (concat src_sequence).

Definition new_loss_of (aug_b : Batch) : loss :=
  let decoder_out := AugDecoderOut (b_sequence aug_b) (b_att aug_b) (b_seg aug_b) in
  let '(input_ids, token_type_ids, attention_mask) := retokenize decoder_out in
  let ood_trg_list :=
    Full (length input_ids) (num_labels cfg)
         (1 / inject_Z (Z.of_nat (num_labels cfg)))%Q in
  let confidence := NoGrad (Softmax (ClsLogit input_ids attention_mask token_type_ids)) in
  Mean (Exp (Sub ood_trg_list confidence)).

Definition total_loss_of (aug_b : Batch) (src_sequence : array) : loss :=
  Plus (Plus (mmd_loss_of aug_b) (ce_loss_of aug_b src_sequence))
       (new_loss_of aug_b).

(** Lines 236-285: one augmenter micro-batch. *)
Definition aug_micro_batch (v : loop_vars) : result loop_vars :=
  fetched ← next_aug v;
  let aug_batch_iter := fetched.1 in
  let v := set_aug_b_iter aug_batch_iter fetched.2 in
  cls_batch ← load_local "src_sequence" (b_iter v);
  Ok (emit [Backward (total_loss_of aug_batch_iter (b_sequence cls_batch))] v).

(** Lines 204-300: one optimisation round of the [while True] loop. *)
Definition round (epoch : nat) (v : loop_vars) : result loop_vars :=
  v ← repeat_n (num_grad_accumulate cfg) cls_micro_batch (emit [ZeroGrad Cls] v);
  let v := emit [ScalerStep Cls; ScalerUpdate; SchedulerStep Cls; ZeroGrad Aug] v in
  v ← repeat_n (num_grad_accumulate cfg) aug_micro_batch v;
  let v := emit [ScalerStep Aug; ScalerUpdate; SchedulerStep Aug] v in
  v ← (if Nat.eqb (print_freq cfg) 0
       then Raise ZeroDivisionError
       else if Nat.eqb (Nat.modulo (freq v) (print_freq cfg)) 0 || finish_epoch v
       then Ok (emit [WriteLog epoch (if Nat.eqb (freq v) 0 then 1 else freq v)] v)
       else Ok v);
  Ok (set_freq (S (freq v)) v).

(** Lines 199-303: rounds until one ends with [finish_epoch] set.
    [None]: the fuel ran out first. *)
Fixpoint inner_loop (fuel : nat) (epoch : nat) (v : loop_vars)
  : result (option loop_vars) :=
  match fuel with
  | O => Ok None
  | S fuel' =>
      v' ← round epoch v;
      if finish_epoch v' then Ok (Some v') else inner_loop fuel' epoch v'
  end.

(** Lines 187-188: the two iterators created before the first epoch. *)
Definition initial_vars : loop_vars :=
  MkVars (pass train 0) (pass aug_train 1) 2 false 0 None None [].

(** Lines 191-193: the start of an epoch. *)
Definition start_epoch (v : loop_vars) : loop_vars :=
  set_freq 0 (set_aug_iter (aug_train_iter v) (iter_calls v) false v).

(** *** Online augmentation (lines 373-400) *)

(** The four numpy arrays the classifier's training set is built from. *)
Record corpus : Type := MkCorpus {
  train_src_input_ids : array;
  train_src_attention_mask : array;
  train_src_token_type_ids : array;
  train_trg_list : array;
}.

(** What the classifier's tokenizer returns: a mapping with the keys
    [input_ids], [token_type_ids] and [attention_mask]. *)
Definition batch_encoding (out : array * array * array) : gmap string array :=
  let '(input_ids, token_type_ids, attention_mask) := out in
  <["input_ids"%string := input_ids]>
    (<["token_type_ids"%string := token_type_ids]>
       (<["attention_mask"%string := attention_mask]> ∅)).

(** [d[key]] *)
Definition getitem (d : gmap string array) (key : string) : result array :=
  match d !! key with
  | Some a => Ok a
  | None => Raise (KeyError key)
  end.

(** Lines 374-396: the body of the loop. [batch_iter] is the batch the
    loop draws; the body reads [aug_batch_iter] and [src_sequence],
    [src_att], [src_seg], which hold what earlier loops left in them. *)
Definition augment_one (aug_batch_iter src_vars : option Batch)
    (c : corpus) (batch_iter : Batch) : result corpus :=
  aug_b_iter ← load_local "aug_batch_iter" aug_batch_iter;
  let trg_label := b_label aug_b_iter in
  src ← load_local "src_sequence" src_vars;
  let decoder_out := AugDecoderOut (b_sequence src) (b_att src) (b_seg src) in
  let augmented_tokenized := batch_encoding (retokenize decoder_out) in
  input_ids ← getitem augmented_tokenized "input_ids";
  let train_src_input_ids := train_src_input_ids c ++ input_ids in
  attention_mask ← getitem augmented_tokenized "attetntion_mask";
  let train_src_attention_mask := train_src_attention_mask c ++ attention_mask in
  token_type_ids ← getitem augmented_tokenized "token_type_ids";
  let train_src_token_type_ids := train_src_token_type_ids c ++ token_type_ids in
  Ok (MkCorpus train_src_input_ids train_src_attention_mask
        train_src_token_type_ids (train_trg_list c ++ trg_label)).

(** [CustomDataset(src_list=.., src_att_list=.., src_seg_list=..,
    trg_list=..)]: the dataset holds the four arrays. *)
Definition CustomDataset (c : corpus) : corpus := c.

(** [len(dataset)] *)
Definition dataset_len (c : corpus) : nat := length (train_src_input_ids c).

(** Lines 373-400: the pass over the augmenter's training loader, then
    the new [dataset_dict['train']]. [calls] numbers the iterator the
    [for] statement creates. *)
Definition augmentation_pass (calls : nat) (aug_batch_iter src_vars : option Batch)
    (c : corpus) : result corpus :=
  c' ← for_each (augment_one aug_batch_iter src_vars) c (pass aug_train calls);
  Ok (CustomDataset c').

End Orchestrator.

(** *** Checkpointing (lines 405-423) *)

(** A floating-point value as far as [<] sees it: finite floats are
    rationals and [<] on them is exact; every comparison with NaN is
    false. *)
Inductive float : Type :=
| Finite (x : Q)
| NaN.

Definition Qltb (a b : Q) : bool := negb (Qle_bool b a).

Definition float_ltb (a b : float) : bool :=
  match a, b with
  | Finite x, Finite y => Qltb x y
  | _, _ => false
  end.

(** A loss value: a Python float ([best_val_loss = 1e+3]) or a 0-dim
    tensor. *)
Inductive number : Type :=
| PyFloat (x : float)
| Tensor0 (x : float).

Definition value (n : number) : float :=
  match n with PyFloat x | Tensor0 x => x end.

(** [n.item()] *)
Definition item (n : number) : result float :=
  match n with
  | Tensor0 x => Ok x
  | PyFloat _ => Raise (AttributeError "item")
  end.

Section Checkpoint.
(** The type of a [state_dict()]. *)
Context {SD : Type}.

Record snapshot : Type := MkSnapshot {
  cls_model_state : SD;
  aug_model_state : SD;
  cls_optimizer_state : SD;
  aug_optimizer_state : SD;
  cls_scheduler_state : SD;
  aug_scheduler_state : SD;
  scaler_state : SD;
}.

Inductive ckpt_value : Type :=
| CkEpoch (epoch : nat)
| CkState (s : SD).

Inductive message : Type :=
| CheckpointSaving
| StillBetter (best_epoch : nat) (best_val_loss : float).

Inductive ckpt_event : Type :=
| LogMessage (m : message)
| TorchSave (d : gmap string ckpt_value) (file_name : string).

(** The dictionary of lines 409-418. *)
Definition checkpoint_dict (epoch : nat) (s : snapshot) : gmap string ckpt_value :=
  <["epoch"%string := CkEpoch epoch]>
  (<["cls_model"%string := CkState (cls_model_state s)]>
  (<["aug_model"%string := CkState (aug_model_state s)]>
  (<["cls_optimizer"%string := CkState (cls_optimizer_state s)]>
  (<["aug_optimizer"%string := CkState (aug_optimizer_state s)]>
  (<["cls_scheduler"%string := CkState (cls_scheduler_state s)]>
  (<["aug_scheduler"%string := CkState (aug_scheduler_state s)]>
  (<["scaler"%string := CkState (scaler_state s)]> ∅))))))).

(** The locals the block reads and writes. [best_epoch] is unbound until
    the first checkpoint of the run. *)
Record best : Type := MkBest {
  best_val_loss : number;
  best_epoch : option nat;
}.

(** Line 186. *)
Definition initial_best : best := MkBest (PyFloat (Finite 1000)) None.

(** Lines 407-423. *)
Definition checkpoint_block (save_file_name : string) (epoch : nat)
    (val_mmd_loss : float) (s : snapshot) (b : best)
  : result (best * list ckpt_event) :=
  if float_ltb val_mmd_loss (value (best_val_loss b)) then
    Ok (MkBest (Tensor0 val_mmd_loss) (Some epoch),
        [LogMessage CheckpointSaving;
         TorchSave (checkpoint_dict epoch s) save_file_name])
  else
    e ← load_local "best_epoch" (best_epoch b);
    x ← item (best_val_loss b);
    Ok (b, [LogMessage (StillBetter e x)]).

Definition saves (evs : list ckpt_event) : list (gmap string ckpt_value) :=
  omap (λ ev, match ev with TorchSave d _ => Some d | _ => None end) evs.

End Checkpoint.

(** *** The end of an epoch (lines 373-423)

    The augmentation pass, then the checkpoint block. [calls] numbers the
    iterator of the pass; the validation loss is the one computed at lines
    355-364. *)
Definition end_of_epoch {SD : Type} (aug_train : DataLoader)
    (retokenize : tensor_expr → array * array * array) (calls : nat)
    (aug_batch_iter src_vars : option Batch) (c : corpus)
    (save_file_name : string) (epoch : nat) (val_mmd_loss : float)
    (s : @snapshot SD) (b : best)
  : result (corpus * best * list (@ckpt_event SD)) :=
  c' ← augmentation_pass aug_train retokenize calls aug_batch_iter src_vars c;
  saved ← checkpoint_block save_file_name epoch val_mmd_loss s b;
  Ok (c', saved.1, saved.2).

(** *** A small run

    Batches of one example of three tokens; the classifier's loader yields
    [batch_x], the augmenter's [batch_y] then [batch_z]. *)
Definition batch_x : Batch :=
  MkBatch [[101; 7; 102]] [[1; 1; 1]] [[0; 0; 0]] [[1; 0]].
Definition batch_y : Batch :=
  MkBatch [[101; 8; 9]] [[1; 1; 1]] [[0; 0; 0]] [[0; 1]].
Definition batch_z : Batch :=
  MkBatch [[101; 5; 102]] [[1; 1; 1]] [[0; 0; 0]] [[1; 0]].

Definition toy_train : DataLoader := MkLoader (λ _, [batch_x]).
Definition toy_aug_train : DataLoader := MkLoader (λ _, [batch_y; batch_z]).

Definition toy_retokenize (t : tensor_expr) : array * array * array :=
  ([[101; 8; 102]], [[0; 0; 0]], [[1; 1; 1]]).

Definition toy_cfg : config := MkConfig 1 1 1 2 30 0.

Definition toy_corpus : corpus :=
  MkCorpus [[101; 7; 102]] [[1; 1; 1]] [[0; 0; 0]] [[1; 0]].

(** The loop variables once the classifier micro-batch of the first round
    has run (lines 204-225). *)
Definition toy_after_cls : loop_vars :=
  MkVars [] [batch_y; batch_z] 2 false 0 (Some batch_x) None
    [ ZeroGrad Cls;
      Backward (Scaled (DividedBy
        (cls_loss (ClsLogit [[101; 7; 102]] [[1; 1; 1]] [[0; 0; 0]]) [[1; 0]]) 1)) ].

End Training.

(** ** The mask helpers of model.py (lines 250-298) *)

Module Masks.

(** Exceptions the helpers raise besides those of [exn]. *)
Inductive error : Type :=
| Builtin (e : exn)
| TypeError (msg : string)
| AssertionError.

Inductive outcome (A : Type) : Type :=
| Return (a : A)
| Throw (e : error).
Arguments Return {A} a.
Arguments Throw {A} e.

#[global] Instance outcome_ret : MRet outcome := λ A a, Return a.
#[global] Instance outcome_bind : MBind outcome :=
  λ A B f m, match m with Return a => f a | Throw e => Throw e end.

Definition of_result {A} (m : result A) : outcome A :=
  match m with Ok a => Return a | Raise e => Throw (Builtin e) end.

(** A tensor: its shape and its entries in row-major order. *)
Record tensor (A : Type) : Type := Tensor { shape : list nat; data : list A }.
Arguments Tensor {A} shape data.
Arguments shape {A} t.
Arguments data {A} t.

Definition numel (shape : list nat) : nat := foldr Nat.mul 1%nat shape.

Definition wf {A} (t : tensor A) : Prop := length (data t) = numel (shape t).

(** [t.dim()] *)
Definition dim {A} (t : tensor A) : nat := length (shape t).

(** Entry (i, j) of a tensor with [cols] columns. *)
Definition entry {A} (cols : nat) (t : tensor A) (i j : nat) : option A :=
  data t !! (i * cols + j)%nat.

(** [t.eq(c)] *)
Definition eq_scalar (t : tensor Z) (c : Z) : tensor bool :=
  Tensor (shape t) (map (λ x, Z.eqb x c) (data t)).

(** [t.any()] *)
Definition any (t : tensor bool) : bool := existsb id (data t).

(** [make_padding_mask] (lines 285-290). [padding_idx] is the value passed;
    [None] is Python's [None], which [eq] rejects. *)
Definition make_padding_mask (input_ids : tensor Z) (padding_idx : option Z)
  : outcome (option (tensor bool)) :=
  match padding_idx with
  | None => Throw (TypeError "eq() received an invalid combination of arguments")
  | Some p =>
      let padding_mask := eq_scalar input_ids p in
      if negb (any padding_mask) then Return None
      else Return (Some padding_mask)
  end.

(** The default of the signature: [padding_idx=1]. *)
Definition make_padding_mask_default (input_ids : tensor Z)
  : outcome (option (tensor bool)) :=
  make_padding_mask input_ids (Some 1).

(** [invert_mask] (lines 292-294). *)
Definition invert_mask (attention_mask : tensor Z) : outcome (tensor bool) :=
  if Nat.eqb (dim attention_mask) 2 then Return (eq_scalar attention_mask 0)
  else Throw AssertionError.

Section FloatMasks.
Context {score : Type} `{ops : Generate.ScoreOps score}.

(** [torch.zeros(rows, cols)] *)
Definition zeros (rows cols : nat) : tensor score :=
  Tensor [rows; cols] (replicate (rows * cols) Generate.s_zero).

(** [fill_with_neg_inf] (lines 296-298): every entry becomes minus
    infinity; the shape is kept. *)
Definition fill_with_neg_inf (t : tensor score) : tensor score :=
  Tensor (shape t) (map (λ _, Generate.s_neg_inf) (data t)).

(** [torch.triu(t, diagonal)] on a matrix: the entries with
    [j - i >= diagonal] are kept, the others become zero. *)
Definition triu (t : tensor score) (diagonal : nat) : result (tensor score) :=
  match shape t with
  | [rows; cols] =>
      Ok (Tensor [rows; cols]
            (imap (λ ix x,
                     if Nat.leb (Nat.div ix cols + diagonal) (Nat.modulo ix cols)
                     then x else Generate.s_zero)
                  (data t)))
  | _ => Raise (RuntimeError "triu: input tensor must have 2 dimensions")
  end.

(** The causal mask of line 265 for [tgt_len] positions. *)
Definition causal_mask (tgt_len : nat) : result (tensor score) :=
  triu (fill_with_neg_inf (zeros tgt_len tgt_len)) 1.

End FloatMasks.

(** An argument of a call of [shift_tokens_right]. *)
Inductive argument : Type :=
| ArgTensor (t : Shift.tensor)
| ArgInt (z : option Z).

(** A call of [shift_tokens_right] with positional arguments: the function
    has three parameters and none has a default (line 270). *)
Definition call_shift_tokens_right (args : list argument) : outcome Shift.tensor :=
  match args with
  | [ArgTensor input_ids; ArgInt pad_token_id; ArgInt (Some decoder_start_token_id)] =>
      of_result (Shift.shift_tokens_right input_ids pad_token_id
                   decoder_start_token_id)
  | [_; _; _] => Throw (TypeError "unsupported argument type")
  | _ :: _ :: _ :: _ :: _ =>
      Throw (TypeError "shift_tokens_right() takes 3 positional arguments")
  | _ =>
      Throw (TypeError
        "shift_tokens_right() missing required positional argument")
  end.

Definition of_shift (t : Shift.tensor) : tensor Z :=
  Tensor [length (Shift.rows t); Shift.cols t] (concat (Shift.rows t)).

(** [bsz, tgt_len = decoder_input_ids.size()] (line 260). *)
Definition size2 {A} (t : tensor A) : outcome (nat * nat) :=
  match shape t with
  | [bsz; tgt_len] => Return (bsz, tgt_len)
  | _ => Throw (Builtin (ValueError "wrong number of values to unpack"))
  end.

(** [_prepare_bart_decoder_inputs] (lines 250-268). [pad_token_id] is
    [config.pad_token_id]; the two optional arguments are [None] when they
    are left out. *)
Definition _prepare_bart_decoder_inputs {score : Type}
    `{ops : Generate.ScoreOps score}
    (pad_token_id : option Z) (input_ids : Shift.tensor)
    (decoder_input_ids : option (tensor Z))
    (decoder_padding_mask : option (tensor Z))
  : outcome (tensor Z * option (tensor bool) * tensor score) :=
  decoder_input_ids ←
    match decoder_input_ids with
    | None =>
        shifted ← call_shift_tokens_right [ArgTensor input_ids; ArgInt pad_token_id];
        Return (of_shift shifted)
    | Some ids => Return ids
    end;
  size ← size2 decoder_input_ids;
  decoder_padding_mask ←
    match decoder_padding_mask with
    | None => make_padding_mask decoder_input_ids pad_token_id
    | Some m => inverted ← invert_mask m; Return (Some inverted)
    end;
  causal ← of_result (causal_mask size.2);
  Return (decoder_input_ids, decoder_padding_mask, causal).

End Masks.

(** ** Resuming a run (training.py, lines 163-179 and 190) *)

Module Resume.

Section Restore.
Context {SD : Type}.

(** [checkpoint[key]] *)
Definition get_key (checkpoint : gmap string (@Training.ckpt_value SD))
    (key : string) : Masks.outcome (@Training.ckpt_value SD) :=
  match checkpoint !! key with
  | Some v => Masks.Return v
  | None => Masks.Throw (Masks.Builtin (KeyError key))
  end.

(** [checkpoint['epoch'] - 1] needs a number. *)
Definition as_epoch (v : @Training.ckpt_value SD) : Masks.outcome Z :=
  match v with
  | Training.CkEpoch n => Masks.Return (Z.of_nat n)
  | Training.CkState _ =>
      Masks.Throw (Masks.TypeError "unsupported operand type(s) for -")
  end.

(** [load_state_dict] needs a state dictionary. *)
Definition as_state (v : @Training.ckpt_value SD) : Masks.outcome SD :=
  match v with
  | Training.CkState s => Masks.Return s
  | Training.CkEpoch _ =>
      Masks.Throw (Masks.TypeError "expected state_dict to be dict-like")
  end.

(** Lines 171-178: the start epoch and the seven states put back, in the
    order of the source. *)
Definition restore (checkpoint : gmap string (@Training.ckpt_value SD))
  : Masks.outcome (Z * @Training.snapshot SD) :=
  epoch ← get_key checkpoint "epoch" ≫= as_epoch;
  let start_epoch := epoch - 1 in
  cls_model ← get_key checkpoint "cls_model" ≫= as_state;
  aug_model ← get_key checkpoint "aug_model" ≫= as_state;
  cls_optimizer ← get_key checkpoint "cls_optimizer" ≫= as_state;
  aug_optimizer ← get_key checkpoint "aug_optimizer" ≫= as_state;
  cls_scheduler ← get_key checkpoint "cls_scheduler" ≫= as_state;
  aug_scheduler ← get_key checkpoint "aug_scheduler" ≫= as_state;
  scaler ← get_key checkpoint "scaler" ≫= as_state;
  Masks.Return
    (start_epoch,
     Training.MkSnapshot cls_model aug_model cls_optimizer aug_optimizer
       cls_scheduler aug_scheduler scaler).

(** The keys [restore] reads. *)
Definition checkpoint_keys : list string :=
  [ "epoch"; "cls_model"; "aug_model"; "cls_optimizer"; "aug_optimizer";
    "cls_scheduler"; "aug_scheduler"; "scaler" ]%string.

(** Lines 405-423 at the end of each epoch of a list, the loss of each
    epoch given with it: the locals [best_val_loss] and [best_epoch] are
    threaded through, the events are collected. *)
Definition run_checkpoints (save_file_name : string)
    (epochs : list (nat * Training.float * @Training.snapshot SD))
    (b : Training.best)
  : result (Training.best * list (@Training.ckpt_event SD)) :=
  for_each (λ acc e,
              r ← Training.checkpoint_block save_file_name e.1.1 e.1.2 e.2 acc.1;
              Ok (r.1, acc.2 ++ r.2))
           (b, []) epochs.

End Restore.

(** [range(start_epoch + 1, num_epochs + 1)] (line 190). *)
Definition epochs_to_run (start_epoch num_epochs : Z) : list Z :=
  map (λ i, start_epoch + 1 + Z.of_nat i)
      (seq 0 (Z.to_nat (num_epochs + 1 - (start_epoch + 1)))).

End Resume.

(** ** Validation (training.py, lines 305-368) *)

Module Validation.

(** A scalar the validation loops compute from a batch, kept as the
    expression that computes it. [src] is the batch whose three arrays are
    fed to the model and whose tokens are the reconstruction target. *)
Inductive term : Type :=
| ClsLossOf (b : Training.Batch)      (* line 328 *)
| ClsAccOf (b : Training.Batch)       (* line 331 *)
| MmdOf (src : Training.Batch)        (* lines 355-357, times 10 *)
| CeOf (src : Training.Batch)         (* line 358 *)
| ReconAccOf (src : Training.Batch).  (* line 361 *)

(** An accumulator: the integer 0 it starts from, the terms added to it,
    and its division by a loader's length. *)
Inductive metric : Type :=
| Int0
| Add (m : metric) (t : term)
| Over (m : metric) (n : nat).

(** An accumulator to which no term was added is still a Python number;
    once a term is added it is a tensor. *)
Fixpoint is_python_number (m : metric) : bool :=
  match m with
  | Int0 => true
  | Add _ _ => false
  | Over m' _ => is_python_number m'
  end.

(** [m /= n]: dividing a Python number by 0 raises; dividing a tensor
    does not. *)
Definition divide (m : metric) (n : nat) : result metric :=
  if is_python_number m && Nat.eqb n 0 then Raise ZeroDivisionError
  else Ok (Over m n).

(** The locals the two loops share with the rest of [training]: the names
    unpacked from [b_iter] ([src_sequence], [src_att], [src_seg],
    [trg_label]) as the batch they hold, [aug_batch_iter], and the four
    accumulators. *)
Record vars : Type := MkVars {
  src : option Training.Batch;
  aug_batch_iter : option Training.Batch;
  val_cls_loss : metric;
  val_acc : metric;
  val_ce_loss : metric;
  val_mmd_loss : metric;
}.

(** Lines 309-312. *)
Definition reset (v : vars) : vars :=
  MkVars (src v) (aug_batch_iter v) Int0 Int0 Int0 Int0.

(** Lines 318-331: the body of the classifier's validation loop. *)
Definition cls_valid_step (v : vars) (batch_iter : Training.Batch) : result vars :=
  Ok (MkVars (Some batch_iter) (aug_batch_iter v)
        (Add (val_cls_loss v) (ClsLossOf batch_iter))
        (Add (val_acc v) (ClsAccOf batch_iter))
        (val_ce_loss v) (val_mmd_loss v)).

(** Lines 318-334. *)
Definition classifier_validation (valid : list Training.Batch) (v : vars)
  : result vars :=
  v ← for_each cls_valid_step v valid;
  loss ← divide (val_cls_loss v) (length valid);
  acc ← divide (val_acc v) (length valid);
  Ok (MkVars (src v) (aug_batch_iter v) loss acc (val_ce_loss v) (val_mmd_loss v)).

(** Lines 342-361: the body of the augmenter's validation loop. The batch
    drawn is bound to [batch_iter]; the body reads [aug_batch_iter] and
    [src_sequence], [src_att], [src_seg]. *)
Definition aug_valid_step (v : vars) (batch_iter : Training.Batch) : result vars :=
  aug_b_iter ← Training.load_local "aug_batch_iter" (aug_batch_iter v);
  s ← Training.load_local "src_sequence" (src v);
  Ok (MkVars (src v) (aug_batch_iter v) (val_cls_loss v)
        (Add (val_acc v) (ReconAccOf s))
        (Add (val_ce_loss v) (CeOf s))
        (Add (val_mmd_loss v) (MmdOf s))).

(** Lines 342-365. *)
Definition augmenter_validation (aug_valid : list Training.Batch) (v : vars)
  : result vars :=
  v ← for_each aug_valid_step v aug_valid;
  ce ← divide (val_ce_loss v) (length aug_valid);
  mmd ← divide (val_mmd_loss v) (length aug_valid);
  acc ← divide (val_acc v) (length aug_valid);
  Ok (MkVars (src v) (aug_batch_iter v) (val_cls_loss v) acc ce mmd).

(** Lines 305-368. *)
Definition validation (valid aug_valid : list Training.Batch) (v : vars)
  : result vars :=
  v ← classifier_validation valid (reset v);
  augmenter_validation aug_valid v.

(** [t] added [n] times to [m]. *)
Fixpoint add_times (n : nat) (t : term) (m : metric) : metric :=
  match n with
  | O => m
  | S n' => add_times n' t (Add m t)
  end.

End Validation.

(** ** Well-formed beams *)

Module Beam.

(** What the decoding loop keeps true of its state when every live
    sequence has [len] tokens: there are [slots] sequences, scores and
    saved scores; every live sequence has [len] tokens and begins with the
    start token; every captured sequence begins with the start token, ends
    with the end-of-sequence token and has at most [len] tokens. *)
Definition well_formed {score : Type} (start eos slots len : nat)
    (st : @Generate.loop_state score) : Prop :=
  length (Generate.seqs st) = slots
  ∧ length (Generate.top_k_scores st) = slots
  ∧ length (Generate.scores_save st) = slots
  ∧ Forall (λ s, length s = len ∧ head s = Some start) (Generate.seqs st)
  ∧ ∀ ix s, Generate.complete_seqs st !! ix = Some s →
      head s = Some start ∧ last s = Some eos ∧ (length s <= len)%nat.

End Beam.

(** * Properties *)

(** Stdlib's [map] under stdpp's list lookup. *)
Lemma lookup_map {A B} (f : A → B) (l : list A) (i : nat) :
  map f l !! i = f <$> (l !! i).
Proof.
  revert i. induction l as [|a l IH]; intros [|i]; simpl; try reflexivity.
  apply IH.
Qed.

(** ** [shift_tokens_right] *)

Section ShiftFacts.
Import Shift.

Lemma assign_tail_zeros (r : list Z) :
  (0 < length r)%nat →
  assign_tail (replicate (length r) 0) r = 0 :: removelast r.
Proof.
  intros Hlen. unfold assign_tail.
  destruct r as [|x r']; [simpl in Hlen; lia|].
  rewrite removelast_firstn_len. simpl length.
  replace (S (length r') - 1)%nat with (length r') by lia.
  reflexivity.
Qed.

Lemma shift_row (pad start : Z) (r : list Z) :
  (0 < length r)%nat →
  map (fill pad) (assign_head start (assign_tail (replicate (length r) 0) r))
  = shifted_row pad start r.
Proof.
  intros Hlen. rewrite assign_tail_zeros by assumption. reflexivity.
Qed.

Lemma shifted_row_length (pad start : Z) (r : list Z) :
  (0 < length r)%nat → length (shifted_row pad start r) = length r.
Proof.
  intros Hlen. unfold shifted_row. rewrite length_map. simpl.
  rewrite removelast_firstn_len, length_take. lia.
Qed.

Lemma shift_rows (pad start : Z) (n : nat) (rs : list (list Z)) :
  (0 < n)%nat → Forall (λ r, length r = n) rs →
  map (map (fill pad))
    (map (assign_head start)
       (zip_with assign_tail (map (λ _, replicate n 0) rs) rs))
  = map (shifted_row pad start) rs.
Proof.
  intros Hn Hall. induction Hall as [|r rs Hr _ IH]; [reflexivity|].
  simpl. rewrite IH. f_equal. subst n. apply shift_row. assumption.
Qed.

Lemma shift_tokens_right_ok (t : tensor) (pad start : Z) :
  wf t → (0 < cols t)%nat →
  shift_tokens_right t (Some pad) start
  = Ok (Tensor (cols t) (map (shifted_row pad start) (rows t))).
Proof.
  intros Hwf Hc. unfold shift_tokens_right, new_zeros. simpl.
  destruct (Nat.eqb_spec (cols t) 0) as [E|_]; [lia|].
  simpl. rewrite shift_rows by assumption. reflexivity.
Qed.

Lemma shifted_wf (t : tensor) (pad start : Z) :
  wf t → (0 < cols t)%nat →
  wf (Tensor (cols t) (map (shifted_row pad start) (rows t))).
Proof.
  unfold wf. simpl. intros Hwf Hc. rewrite Forall_map.
  eapply Forall_impl; [exact Hwf|]. intros r Hr. hnf in Hr.
  change (length (shifted_row pad start r) = cols t).
  rewrite shifted_row_length; lia.
Qed.

Lemma fill_not_sentinel (pad x : Z) : pad ≠ -100 → fill pad x ≠ -100.
Proof.
  intros Hpad. unfold fill. destruct (Z.eqb_spec x (-100)); assumption.
Qed.

(** A tensor without columns cannot take the start token. *)
Lemma shift_tokens_right_no_columns (rs : list (list Z)) (pad : option Z) (start : Z) :
  is_ok (shift_tokens_right (Tensor 0 rs) pad start) = false.
Proof. reflexivity. Qed.

(** Without a pad id the transform raises the configuration error. *)
Lemma shift_tokens_right_no_pad (t : tensor) (start : Z) :
  (0 < cols t)%nat →
  shift_tokens_right t None start
  = Raise (ValueError "self.model.config.pad_token_id has to be defined.").
Proof.
  intros Hc. unfold shift_tokens_right. simpl.
  destruct (Nat.eqb_spec (cols t) 0) as [E|_]; [lia|]. reflexivity.
Qed.
End ShiftFacts.

Section ShiftTwice.
Import Shift.

Lemma shift_twice_ok (t : tensor) (pad start : Z) :
  wf t → (0 < cols t)%nat →
  shift_twice t (Some pad) start
  = Ok (Tensor (cols t)
          (map (λ r, shifted_row pad start (shifted_row pad start r)) (rows t))).
Proof.
  intros Hwf Hc. unfold shift_twice.
  rewrite shift_tokens_right_ok by assumption. simpl.
  rewrite shift_tokens_right_ok by (apply shifted_wf || simpl; assumption).
  simpl. rewrite map_map. reflexivity.
Qed.

(** A one-row input on which the second application changes the result,
    whatever the pad and start ids are. *)
Lemma shift_not_idempotent (pad start : Z) :
  ∃ t, wf t ∧ (0 < cols t)%nat
       ∧ shift_twice t (Some pad) start ≠ shift_tokens_right t (Some pad) start.
Proof.
  set (v := fill pad (fill pad start)).
  assert (∃ x, x ≠ -100 ∧ x ≠ v) as (x & Hx & Hv).
  { destruct (Z.eq_dec (v + 1) (-100)) as [E|E].
    - exists (v + 2). lia.
    - exists (v + 1). lia. }
  exists (Tensor 2 [[x; 0]]). split; [|split].
  - repeat constructor.
  - simpl. lia.
  - rewrite shift_twice_ok, shift_tokens_right_ok
      by (repeat constructor || (simpl; lia)).
    assert (Hfx : fill pad x = x).
    { unfold fill. destruct (Z.eqb_spec x (-100)); [contradiction|reflexivity]. }
    simpl. unfold shifted_row. simpl. rewrite Hfx. fold v.
    intros Heq. injection Heq as Heq. congruence.
Qed.
End ShiftTwice.

(** C5. For a token-id matrix with at least one column, [shift_tokens_right]
    returns, row by row, the start token followed by the row without its
    last entry, with every -100 replaced by the pad id: [a,b,c,d] with
    pad 0 and start 9 gives [9,a,b,c]. No -100 is left when the pad id is
    not -100 itself. Applied to its own output the transform shifts once
    more ([9,9,a,b]), and it is not idempotent. *)
Theorem shift_tokens_right_spec (t : Shift.tensor) (pad start : Z) :
  Shift.wf t → (0 < Shift.cols t)%nat →
  Shift.shift_tokens_right t (Some pad) start
  = Ok (Shift.Tensor (Shift.cols t)
          (map (Shift.shifted_row pad start) (Shift.rows t)))
  ∧ (∀ a b c d : Z, a ≠ -100 → b ≠ -100 → c ≠ -100 →
       Shift.shift_tokens_right (Shift.Tensor 4 [[a; b; c; d]]) (Some 0) 9
       = Ok (Shift.Tensor 4 [[9; a; b; c]]))
  ∧ (∀ (r : list Z) (i : nat) (x : Z),
       r ∈ Shift.rows t → (start :: removelast r) !! i = Some x →
       Shift.shifted_row pad start r !! i
       = Some (if Z.eqb x (-100) then pad else x))
  ∧ (pad ≠ -100 →
       Forall (λ r, -100 ∉ Shift.shifted_row pad start r) (Shift.rows t))
  ∧ Shift.shift_twice t (Some pad) start
    = Ok (Shift.Tensor (Shift.cols t)
            (map (λ r, Shift.shifted_row pad start (Shift.shifted_row pad start r))
                 (Shift.rows t)))
  ∧ (∀ a b c d : Z, a ≠ -100 → b ≠ -100 → c ≠ -100 →
       Shift.shift_twice (Shift.Tensor 4 [[a; b; c; d]]) (Some 0) 9
       = Ok (Shift.Tensor 4 [[9; 9; a; b]]))
  ∧ (∃ t', Shift.wf t' ∧ (0 < Shift.cols t')%nat
           ∧ Shift.shift_twice t' (Some pad) start
             ≠ Shift.shift_tokens_right t' (Some pad) start).
Proof.
  intros Hwf Hc.
  assert (Hfill : ∀ x : Z, x ≠ -100 → Shift.fill 0 x = x).
  { intros x Hx. unfold Shift.fill.
    destruct (Z.eqb_spec x (-100)); [contradiction|reflexivity]. }
  repeat split.
  - apply shift_tokens_right_ok; assumption.
  - intros a b c d Ha Hb Hc'.
    rewrite shift_tokens_right_ok by (repeat constructor || (simpl; lia)).
    simpl. unfold Shift.shifted_row. simpl.
    rewrite !Hfill by (assumption || lia). reflexivity.
  - intros r i x _ Hi. unfold Shift.shifted_row.
    rewrite lookup_map, Hi. reflexivity.
  - intros Hpad. apply Forall_forall. intros r _ Hin.
    unfold Shift.shifted_row in Hin.
    apply list_elem_of_In, in_map_iff in Hin. destruct Hin as (x & Hx & _).
    revert Hx. apply fill_not_sentinel. assumption.
  - apply shift_twice_ok; assumption.
  - intros a b c d Ha Hb Hc'.
    rewrite shift_twice_ok by (repeat constructor || (simpl; lia)).
    simpl. unfold Shift.shifted_row. simpl.
    rewrite !Hfill by (assumption || lia || (rewrite Hfill; lia)).
    reflexivity.
  - apply shift_not_idempotent.
Qed.

Lemma shift_tokens_right_spec_witness :
  Shift.shift_tokens_right (Shift.Tensor 4 [[11; 12; -100; 14]; [21; 22; 23; 24]])
    (Some 0) 9
  = Ok (Shift.Tensor 4 [[9; 11; 12; 0]; [9; 21; 22; 23]]).
Proof.
  refine (proj1 (shift_tokens_right_spec
                   (Shift.Tensor 4 [[11; 12; -100; 14]; [21; 22; 23; 24]]) 0 9 _ _)).
  - repeat constructor.
  - simpl. lia.
Defined.

(** ** The error monad *)

Lemma bind_Ok {A B} (m : result A) (k : A → result B) (b : B) :
  (m ≫= k) = Ok b → ∃ a, m = Ok a ∧ k a = Ok b.
Proof. destruct m as [a|e]; [eauto|discriminate]. Qed.

Lemma for_each_app {S X} (body : S → X → result S) (st : S) (xs ys : list X) :
  for_each body st (xs ++ ys) = (for_each body st xs ≫= λ st', for_each body st' ys).
Proof.
  revert st. induction xs as [|x xs IH]; intros st; [reflexivity|].
  simpl. destruct (body st x) as [st'|e]; [apply IH|reflexivity].
Qed.

(** Splits [H : (x ← m; k) = Ok b] into the two steps. *)
Ltac bind_inv H :=
  let a := fresh "a" in
  let Ha := fresh "Ha" in
  apply bind_Ok in H; destruct H as (a & Ha & H).

(** Cases on the [Nat.ltb] test that [H] branches on. *)
Ltac case_ltb H :=
  match type of H with
  | context [Nat.ltb ?a ?b] => destruct (Nat.ltb a b)
  end.

(** ** [generate]: names *)

Section GenerateNames.
Import Generate.
Context {score : Type} `{ops : ScoreOps score} {T : Type}.

Lemma input_ids_unbound :
  is_local "input_ids" = false ∧ module_globals !! "input_ids"%string = None.
Proof. split; vm_compute; reflexivity. Qed.

Lemma decoder_out_unbound :
  is_local "decoder_out" = false ∧ module_globals !! "decoder_out"%string = None.
Proof. split; vm_compute; reflexivity. Qed.

(** A step cannot pass line 165 unless the globals bind [decoder_out]. *)
Lemma decode_step_needs_decoder_out (G : gmap string pyobj) (self : @model score T)
    (hidden mask : T) (beam_size batch_size : nat) (every_batch : list nat)
    (repetition_penalty : score) (st : loop_state) (step : nat) :
  G !! "decoder_out"%string = None →
  decode_step G self hidden mask beam_size batch_size every_batch
    repetition_penalty st step = Raise (NameError "decoder_out").
Proof. intros HG. unfold decode_step, load_global. rewrite HG. reflexivity. Qed.

(** The first statement cannot complete unless the globals bind
    [input_ids]. *)
Lemma generate_in_needs_input_ids (G : gmap string pyobj) (self : @model score T)
    (encoder_out attention_mask : T) (beam_size : nat)
    (beam_alpha repetition_penalty : score) :
  G !! "input_ids"%string = None →
  generate_in G self encoder_out attention_mask beam_size beam_alpha
    repetition_penalty = Raise (NameError "input_ids").
Proof. intros HG. unfold generate_in, load_global. rewrite HG. reflexivity. Qed.
End GenerateNames.

(** C10. Whatever its arguments, [generate] raises [NameError] at its first
    statement: [input_ids] is neither a parameter nor assigned in the body,
    and the module does not define it. The score computation of every
    decoding step reads [decoder_out], which is not bound either (the
    forward pass is bound to [decoder_outputs]), so no step can complete. *)
Theorem generate_raises_NameError
    {score : Type} `{ops : Generate.ScoreOps score} {T : Type}
    (self : @Generate.model score T) (encoder_out attention_mask : T)
    (beam_size : nat) (beam_alpha repetition_penalty : score) :
  Generate.generate self encoder_out attention_mask beam_size beam_alpha
    repetition_penalty = Raise (NameError "input_ids")
  ∧ Generate.is_local "input_ids" = false
  ∧ Generate.module_globals !! "input_ids"%string = None
  ∧ Generate.is_local "decoder_out" = false
  ∧ Generate.is_local "decoder_outputs" = true
  ∧ Generate.module_globals !! "decoder_out"%string = None
  ∧ (∀ (hidden mask : T) (batch_size : nat) (every_batch : list nat)
       (st : Generate.loop_state) (step : nat),
       Generate.decode_step Generate.module_globals self hidden mask beam_size
         batch_size every_batch repetition_penalty st step
       = Raise (NameError "decoder_out"))
  ∧ (∀ (hidden mask : T) (batch_size : nat) (every_batch : list nat)
       (st : Generate.loop_state) (step : nat) (steps : list nat),
       Generate.decode_loop Generate.module_globals self hidden mask beam_size
         batch_size every_batch repetition_penalty st (step :: steps)
       = Raise (NameError "decoder_out")).
Proof.
  pose proof input_ids_unbound as [Hi1 Hi2].
  pose proof decoder_out_unbound as [Hd1 Hd2].
  split; [apply generate_in_needs_input_ids; assumption|].
  do 2 (split; [assumption|]). split; [assumption|].
  split; [vm_compute; reflexivity|]. split; [assumption|]. split.
  - intros. apply decode_step_needs_decoder_out. assumption.
  - intros. unfold Generate.decode_loop. simpl.
    rewrite decode_step_needs_decoder_out by assumption. reflexivity.
Qed.

(** C1 (the code departs from it). On a batch of two examples with beam
    size 2 and a decoder that never ranks the end-of-sequence token among
    the best, [generate] returns no sequence: it raises [NameError]. With
    the two unbound names bound in the globals, the same run ends in the
    fallback and returns one sequence per example. *)
Theorem generate_returns_no_sequence :
  Generate.generate (Generate.toy_model (-100) 3) tt tt 2
    (Generate.Fin 1) (Generate.Fin 0)
  = Raise (NameError "input_ids")
  ∧ Generate.generate_in Generate.patched_globals (Generate.toy_model (-100) 3)
      tt tt 2 (Generate.Fin 1) (Generate.Fin 0)
    = Ok [[1; 3; 3; 3]; [1; 3; 3; 3]]%nat.
Proof. split; vm_compute; reflexivity. Qed.

(** ** [generate]: the repetition penalty *)

(** C8. With a repetition penalty equal to 0 the penalty block returns the
    log-softmax scores as they are, at every step, and makes no update:
    neither the multiplication nor the division is executed, so nothing is
    divided by zero. *)
Theorem repetition_penalty_zero_disabled
    {score : Type} `{ops : Generate.ScoreOps score}
    (repetition_penalty : score) (step : nat) (next_word_inds : option (list nat))
    (scores : list (list score)) :
  Generate.s_eqb repetition_penalty Generate.s_zero = true →
  Generate.repetition_penalty_block step repetition_penalty next_word_inds scores
  = Ok (scores, []).
Proof.
  intros Hzero. unfold Generate.repetition_penalty_block.
  rewrite Hzero, andb_false_r. reflexivity.
Qed.

Lemma repetition_penalty_zero_disabled_witness :
  Generate.repetition_penalty_block 1 (Generate.Fin 0) (Some [3; 2]%nat)
    (Generate.toy_scores (-3) 2)
  = Ok (Generate.toy_scores (-3) 2, []).
Proof.
  apply (repetition_penalty_zero_disabled (Generate.Fin 0)). reflexivity.
Defined.

(** With a penalty of 2 the same call does update the two slots. *)
Example repetition_penalty_two_updates :
  Generate.repetition_penalty_block 1 (Generate.Fin 2) (Some [3; 2]%nat)
    (Generate.toy_scores (-3) 2)
  = Ok ([ [Generate.Fin (-5); Generate.Fin (-4); Generate.Fin (-3); Generate.Fin (-2)];
          [Generate.Fin (-5); Generate.Fin (-4); Generate.Fin (-6); Generate.Fin (-1)] ],
        [Generate.Multiplied 0 3; Generate.Multiplied 1 2]).
Proof. vm_compute. reflexivity. Qed.

(** ** [generate]: bookkeeping of completed slots *)

Section Bookkeeping.
Import Generate.
Context {score : Type} `{ops : ScoreOps score} {T : Type}.

Lemma elem_of_eos_positions (eos : nat) (next : list nat) (ix : nat) :
  ix ∈ eos_positions eos next ↔ next !! ix = Some eos.
Proof.
  unfold eos_positions. rewrite list_elem_of_In, in_map_iff. split.
  - intros ([i w] & Hfst & Hin). simpl in Hfst. subst i.
    apply list_elem_of_In, list_elem_of_filter in Hin. destruct Hin as [Hp Hin].
    simpl in Hp. subst w.
    apply list_elem_of_lookup in Hin. destruct Hin as [j Hj].
    apply lookup_zip_with_Some in Hj. destruct Hj as (a & b & Heq & Ha & Hb).
    injection Heq as -> ->. apply lookup_seq in Ha. destruct Ha as [-> _].
    exact Hb.
  - intros Hix. exists (ix, eos). split; [reflexivity|].
    apply list_elem_of_In, list_elem_of_filter. split; [reflexivity|].
    apply list_elem_of_lookup. exists ix.
    apply lookup_zip_with_Some. exists ix, eos.
    split; [reflexivity|]. split; [|assumption].
    apply lookup_seq. split; [reflexivity|].
    apply lookup_lt_Some in Hix. exact Hix.
Qed.

(** [dst[ixs] = src[ixs]]: the positions listed take the source's value,
    the others keep theirs. *)
Lemma scatter_spec {A} (src : list A) (ixs : list nat) :
  ∀ (dst dst' : list A), scatter src dst ixs = Ok dst' →
  ∀ ix, (ix ∈ ixs → dst' !! ix = src !! ix)
        ∧ (ix ∉ ixs → dst' !! ix = dst !! ix).
Proof.
  unfold scatter. induction ixs as [|ix0 ixs IH]; intros dst dst' Hrun ix.
  - simpl in Hrun. injection Hrun as <-. split; [|reflexivity].
    intros Hin. apply elem_of_nil in Hin. contradiction.
  - simpl in Hrun. bind_inv Hrun. bind_inv Ha.
    unfold index in Ha0. destruct (src !! ix0) as [v|] eqn:Hsrc; [|discriminate].
    injection Ha0 as <-.
    destruct (Nat.ltb_spec ix0 (length dst)) as [Hlt|_]; [|discriminate].
    injection Ha as <-.
    destruct (IH _ _ Hrun ix) as [IHin IHout].
    destruct (decide (ix ∈ ixs)) as [Hin|Hnin].
    + split; intros Hx; [auto|]. exfalso. apply Hx. right. assumption.
    + rewrite (IHout Hnin). destruct (decide (ix = ix0)) as [->|Hne].
      * rewrite list_lookup_insert_eq by assumption.
        split; intros Hx; [auto|]. exfalso. apply Hx. left.
      * rewrite list_lookup_insert_ne by auto.
        split; intros Hx; [|reflexivity].
        apply elem_of_cons in Hx. destruct Hx; [contradiction|contradiction].
Qed.

Lemma scatter_length {A} (src : list A) (ixs : list nat) :
  ∀ (dst dst' : list A), scatter src dst ixs = Ok dst' → length dst' = length dst.
Proof.
  unfold scatter. induction ixs as [|ix0 ixs IH]; intros dst dst' Hrun.
  - simpl in Hrun. injection Hrun as <-. reflexivity.
  - simpl in Hrun. bind_inv Hrun. bind_inv Ha.
    destruct (Nat.ltb ix0 (length dst)); [|discriminate].
    injection Ha as <-. rewrite (IH _ _ Hrun). apply length_insert.
Qed.

Lemma store_seqs_spec (seqs : list (list nat)) (ixs : list nat) :
  ∀ (cs cs' : gmap nat (list nat)), store_seqs seqs cs ixs = Ok cs' →
  ∀ ix, (ix ∈ ixs → cs' !! ix = seqs !! ix)
        ∧ (ix ∉ ixs → cs' !! ix = cs !! ix).
Proof.
  unfold store_seqs. induction ixs as [|ix0 ixs IH]; intros cs cs' Hrun ix.
  - simpl in Hrun. injection Hrun as <-. split; [|reflexivity].
    intros Hin. apply elem_of_nil in Hin. contradiction.
  - simpl in Hrun. bind_inv Hrun. bind_inv Ha.
    unfold index in Ha0. destruct (seqs !! ix0) as [row|] eqn:Hrow; [|discriminate].
    injection Ha0 as <-. injection Ha as <-.
    destruct (IH _ _ Hrun ix) as [IHin IHout].
    destruct (decide (ix ∈ ixs)) as [Hin|Hnin].
    + split; intros Hx; [auto|]. exfalso. apply Hx. right. assumption.
    + rewrite (IHout Hnin). destruct (decide (ix = ix0)) as [->|Hne].
      * rewrite lookup_insert_eq.
        split; intros Hx; [auto|]. exfalso. apply Hx. left.
      * rewrite lookup_insert_ne by auto.
        split; intros Hx; [|reflexivity].
        apply elem_of_cons in Hx. destruct Hx; contradiction.
Qed.

(** The slots [save_complete] writes are those that chose the
    end-of-sequence token and were not complete before. *)
Lemma elem_of_complete_ind_add (eos : nat) (done : gset nat) (next : list nat)
    (ix : nat) :
  ix ∈ elements (list_to_set (eos_positions eos next) ∖ done : gset nat)
  ↔ next !! ix = Some eos ∧ ix ∉ done.
Proof.
  rewrite elem_of_elements, elem_of_difference, elem_of_list_to_set,
    elem_of_eos_positions. reflexivity.
Qed.

(** Lines 195-205 leave alone what they do not own. *)
Lemma save_complete_frame (eos : nat) (st st' : @loop_state score) (next : list nat) :
  save_complete eos st next = Ok st' →
  seqs st' = seqs st ∧ top_k_scores st' = top_k_scores st
  ∧ next_word_inds st' = next_word_inds st
  ∧ complete_ind st ⊆ complete_ind st'
  ∧ length (scores_save st') = length (scores_save st).
Proof.
  unfold save_complete. intros Hrun.
  destruct (bool_decide (eos ∈ next)).
  - case_ltb Hrun.
    + bind_inv Hrun. bind_inv Hrun. injection Hrun as <-. simpl.
      repeat split; [set_solver|]. eapply scatter_length. eassumption.
    + injection Hrun as <-. simpl. repeat split. set_solver.
  - injection Hrun as <-. repeat split. set_solver.
Qed.

(** A slot that was complete before keeps its saved score and sequence. *)
Lemma save_complete_keeps (eos : nat) (st st' : @loop_state score) (next : list nat)
    (ix : nat) :
  save_complete eos st next = Ok st' → ix ∈ complete_ind st →
  scores_save st' !! ix = scores_save st !! ix
  ∧ complete_seqs st' !! ix = complete_seqs st !! ix.
Proof.
  unfold save_complete. intros Hrun Hdone.
  destruct (bool_decide (eos ∈ next)); [|injection Hrun as <-; auto].
  case_ltb Hrun; [|injection Hrun as <-; auto].
  bind_inv Hrun. bind_inv Hrun. injection Hrun as <-. simpl.
  assert (Hnot : ix ∉ elements
            (list_to_set (eos_positions eos next) ∖ complete_ind st : gset nat)).
  { rewrite elem_of_complete_ind_add. tauto. }
  split.
  - eapply scatter_spec in Ha. apply Ha. exact Hnot.
  - eapply store_seqs_spec in Ha0. apply Ha0. exact Hnot.
Qed.

(** A slot that completes now has its score and sequence captured. *)
Lemma save_complete_captures (eos : nat) (st st' : @loop_state score) (next : list nat)
    (ix : nat) :
  save_complete eos st next = Ok st' →
  next !! ix = Some eos → ix ∉ complete_ind st →
  ix ∈ complete_ind st'
  ∧ scores_save st' !! ix = top_k_scores st !! ix
  ∧ complete_seqs st' !! ix = seqs st !! ix.
Proof.
  unfold save_complete. intros Hrun Hnext Hnew.
  assert (Hin : ix ∈ elements
            (list_to_set (eos_positions eos next) ∖ complete_ind st : gset nat)).
  { rewrite elem_of_complete_ind_add. tauto. }
  rewrite bool_decide_eq_true_2 in Hrun
    by (eapply list_elem_of_lookup_2; eassumption).
  destruct (Nat.ltb_spec 0 (length (elements
            (list_to_set (eos_positions eos next) ∖ complete_ind st : gset nat))))
    as [_|Hlen].
  - bind_inv Hrun. bind_inv Hrun. injection Hrun as <-. simpl.
    split; [|split].
    + apply elem_of_union. right. apply elem_of_list_to_set.
      apply elem_of_eos_positions. assumption.
    + eapply scatter_spec in Ha. apply Ha. exact Hin.
    + eapply store_seqs_spec in Ha0. apply Ha0. exact Hin.
  - exfalso. destruct (elements _); [|simpl in Hlen; lia].
    apply elem_of_nil in Hin. contradiction.
Qed.
End Bookkeeping.

Section StepsKeepCompleted.
Import Generate.
Context {score : Type} `{ops : ScoreOps score} {T : Type}.
Context (G : gmap string pyobj) (self : @model score T).
Context (hidden mask : T) (beam_size batch_size : nat).
Context (every_batch : list nat) (repetition_penalty : score).

#[local] Abbreviation step_fn :=
  (decode_step G self hidden mask beam_size batch_size every_batch
     repetition_penalty).
#[local] Abbreviation loop_fn :=
  (decode_loop G self hidden mask beam_size batch_size every_batch
     repetition_penalty).

(** A step that completes ends in [save_complete], entered with the
    saved scores and sequences of the state the step started from. *)
Lemma decode_step_ends_in_save (st st1 : @loop_state score) (step : nat) :
  step_fn st step = Ok st1 →
  ∃ (pre : @loop_state score) (next : list nat),
    save_complete (eos_idx self) pre next = Ok st1
    ∧ scores_save pre = scores_save st
    ∧ complete_seqs pre = complete_seqs st
    ∧ complete_ind pre = complete_ind st
    ∧ next_word_inds pre = Some next.
Proof.
  unfold decode_step. intros Hrun. do 11 bind_inv Hrun.
  eexists _, _. split; [exact Hrun|]. simpl. auto.
Qed.

Lemma decode_step_keeps (st st1 : @loop_state score) (step ix : nat) :
  step_fn st step = Ok st1 → ix ∈ complete_ind st →
  ix ∈ complete_ind st1
  ∧ scores_save st1 !! ix = scores_save st !! ix
  ∧ complete_seqs st1 !! ix = complete_seqs st !! ix.
Proof.
  intros Hrun Hdone.
  destruct (decode_step_ends_in_save _ _ _ Hrun)
    as (pre & next & Hsave & Hs & Hc & Hi & _).
  rewrite <- Hi in Hdone.
  destruct (save_complete_keeps _ _ _ _ _ Hsave Hdone) as [Hk1 Hk2].
  destruct (save_complete_frame _ _ _ _ Hsave) as (_ & _ & _ & Hsub & _).
  rewrite <- Hs, <- Hc. auto.
Qed.

Lemma decode_loop_keeps (steps : list nat) :
  ∀ (st st2 : @loop_state score) (ix : nat),
    loop_fn st steps = Ok st2 → ix ∈ complete_ind st →
    ix ∈ complete_ind st2
    ∧ scores_save st2 !! ix = scores_save st !! ix
    ∧ complete_seqs st2 !! ix = complete_seqs st !! ix.
Proof.
  unfold decode_loop.
  induction steps as [|step steps IH]; intros st st2 ix Hrun Hdone.
  - simpl in Hrun. injection Hrun as <-. auto.
  - simpl in Hrun. bind_inv Hrun.
    destruct (decode_step_keeps _ _ _ _ Ha Hdone) as (Hd1 & Hs1 & Hc1).
    destruct (IH _ _ _ Hrun Hd1) as (Hd2 & Hs2 & Hc2).
    rewrite Hs2, Hc2. auto.
Qed.

Lemma decode_step_captures (st st1 : @loop_state score) (step ix : nat)
    (next : list nat) :
  step_fn st step = Ok st1 → ix ∉ complete_ind st →
  next_word_inds st1 = Some next → next !! ix = Some (eos_idx self) →
  ix ∈ complete_ind st1
  ∧ scores_save st1 !! ix = top_k_scores st1 !! ix
  ∧ complete_seqs st1 !! ix = seqs st1 !! ix.
Proof.
  intros Hrun Hnew Hnext Hix.
  destruct (decode_step_ends_in_save _ _ _ Hrun)
    as (pre & next' & Hsave & _ & _ & Hi & Hn).
  destruct (save_complete_frame _ _ _ _ Hsave) as (Hq & Ht & Hnw & _ & _).
  assert (next' = next) as -> by congruence.
  rewrite <- Hi in Hnew.
  destruct (save_complete_captures _ _ _ _ _ Hsave Hix Hnew) as (H1 & H2 & H3).
  rewrite Hq, Ht. auto.
Qed.
End StepsKeepCompleted.

(** C7. When a step makes a slot choose the end-of-sequence token for the
    first time, the slot's score and sequence are captured as they stand
    after that step; whatever the later steps do, including choosing the
    end-of-sequence token at the same slot again, the captured score and
    sequence stay as they are. *)
Theorem completed_slot_captured_once
    {score : Type} `{ops : Generate.ScoreOps score} {T : Type}
    (G : gmap string Generate.pyobj) (self : @Generate.model score T)
    (hidden mask : T) (beam_size batch_size : nat) (every_batch : list nat)
    (repetition_penalty : score) (st st1 st2 : @Generate.loop_state score)
    (step ix : nat) (next : list nat) (steps : list nat) :
  Generate.decode_step G self hidden mask beam_size batch_size every_batch
    repetition_penalty st step = Ok st1 →
  ix ∉ Generate.complete_ind st →
  Generate.next_word_inds st1 = Some next →
  next !! ix = Some (Generate.eos_idx self) →
  Generate.decode_loop G self hidden mask beam_size batch_size every_batch
    repetition_penalty st1 steps = Ok st2 →
  (ix ∈ Generate.complete_ind st1
   ∧ Generate.scores_save st1 !! ix = Generate.top_k_scores st1 !! ix
   ∧ Generate.complete_seqs st1 !! ix = Generate.seqs st1 !! ix)
  ∧ (ix ∈ Generate.complete_ind st2
     ∧ Generate.scores_save st2 !! ix = Generate.scores_save st1 !! ix
     ∧ Generate.complete_seqs st2 !! ix = Generate.complete_seqs st1 !! ix).
Proof.
  intros Hstep Hnew Hnext Hix Hloop.
  pose proof (decode_step_captures _ _ _ _ _ _ _ _ _ _ _ _ _
                Hstep Hnew Hnext Hix) as Hcap.
  split; [exact Hcap|].
  destruct Hcap as (Hdone & _ & _).
  exact (decode_loop_keeps _ _ _ _ _ _ _ _ _ _ _ _ Hloop Hdone).
Qed.

Lemma completed_slot_captured_once_witness :
  (1%nat ∈ Generate.complete_ind Generate.toy_step1
   ∧ Generate.scores_save Generate.toy_step1 !! 1%nat = Some (Generate.Fin (-4))
   ∧ Generate.complete_seqs Generate.toy_step1 !! 1%nat = Some [1; 3; 2]%nat)
  ∧ (1%nat ∈ Generate.complete_ind Generate.toy_step2
     ∧ Generate.scores_save Generate.toy_step2 !! 1%nat = Some (Generate.Fin (-4))
     ∧ Generate.complete_seqs Generate.toy_step2 !! 1%nat = Some [1; 3; 2]%nat).
Proof.
  refine (completed_slot_captured_once Generate.patched_globals
            (Generate.toy_model (-3) 3) tt tt 2 2 [0; 2]%nat (Generate.Fin 0)
            Generate.toy_step0 Generate.toy_step1 Generate.toy_step2
            1 1 [3; 2; 3; 2]%nat [2]%nat _ _ _ _ _).
  - vm_compute. reflexivity.
  - vm_compute. intros H. discriminate H.
  - reflexivity.
  - reflexivity.
  - vm_compute. reflexivity.
Defined.

(** In that run slot 1 chooses the end-of-sequence token again at step 2,
    with another score and sequence than the ones it keeps. *)
Example toy_redetection :
  Generate.next_word_inds Generate.toy_step2 = Some [3; 2; 3; 2]%nat
  ∧ Generate.top_k_scores Generate.toy_step2 !! 1%nat = Some (Generate.Fin (-5))
  ∧ Generate.seqs Generate.toy_step2 !! 1%nat = Some [1; 3; 3; 2]%nat.
Proof. repeat split. Qed.

(** ** [generate]: the winner of every example *)

Section Lists.
Import Generate.




Lemma chunks_length {A} (w n : nat) (xs : list A) : length (chunks w n xs) = n.
Proof.
  revert xs. induction n as [|n IH]; intros xs; simpl; [|rewrite IH]; reflexivity.
Qed.


(** A loop that appends one computed entry per element. *)
Lemma collect_spec {X Y} (f : X → result Y) (xs : list X) :
  ∀ (acc out : list Y),
  for_each (λ acc x, y ← f x; Ok (acc ++ [y])) acc xs = Ok out →
  ∃ ys, out = acc ++ ys ∧ Forall2 (λ x y, f x = Ok y) xs ys.
Proof.
  induction xs as [|x xs IH]; intros acc out Hrun; simpl in Hrun.
  - injection Hrun as <-. exists []. rewrite app_nil_r. split; constructor.
  - bind_inv Hrun. bind_inv Ha. injection Ha as <-.
    destruct (IH _ _ Hrun) as (ys & -> & Hall).
    exists (a0 :: ys). rewrite <- app_assoc. split; [reflexivity|].
    constructor; assumption.
Qed.

End Lists.

Section Winner.
Import Generate.
Context {score : Type} {ops : ScoreOps score} {order : ScoreOrder ops}.




End Winner.

(** The rational scores are ordered as the decoder needs. *)
Lemma q_ltb_false (x y : Q) :
  Generate.q_ltb (Generate.Fin x) (Generate.Fin y) = false ↔ (y <= x)%Q.
Proof. simpl. rewrite negb_false_iff. apply Qle_bool_iff. Qed.

Lemma q_ltb_true (x y : Q) :
  Generate.q_ltb (Generate.Fin x) (Generate.Fin y) = true ↔ (x < y)%Q.
Proof.
  split.
  - intros H. apply Qnot_le_lt. intros Hle. apply q_ltb_false in Hle. congruence.
  - intros H. destruct (Generate.q_ltb _ _) eqn:E; [reflexivity|].
    apply q_ltb_false in E. exfalso. exact (Qlt_not_le _ _ H E).
Qed.

Lemma qscore_order : Generate.ScoreOrder Generate.qscore_ops.
Proof.
  split.
  - intros [|x]; [reflexivity|]. apply q_ltb_false. apply Qle_refl.
  - intros [|x] [|y] [|z] H1 H2; try discriminate; try reflexivity.
    apply q_ltb_true. apply q_ltb_true in H1, H2. eapply Qlt_trans; eassumption.
  - intros [|x] [|y] [|z] H1 H2; try discriminate; try reflexivity.
    apply q_ltb_false. apply q_ltb_false in H1, H2. eapply Qle_trans; eassumption.
Qed.




(** ** The inner training loop: the two data sources *)

Section Sources.
Import Training.
Context (train aug_train : DataLoader).
Context (retokenize : tensor_expr → array * array * array).
Context (cfg : config).

#[local] Abbreviation cls_mb := (cls_micro_batch train cfg).
#[local] Abbreviation aug_mb := (aug_micro_batch aug_train retokenize cfg).
#[local] Abbreviation round_fn := (round train aug_train retokenize cfg).
#[local] Abbreviation loop_fn := (inner_loop train aug_train retokenize cfg).

(** What a classifier micro-batch does to the loop variables. *)
Lemma cls_micro_batch_spec (v v' : loop_vars) :
  cls_mb v = Ok v' →
  finish_epoch v' = finish_epoch v
  ∧ aug_train_iter v' = aug_train_iter v
  ∧ freq v' = freq v
  ∧ is_Some (b_iter v')
  ∧ (cls_train_iter v = [] →
     ∃ b, pass train (iter_calls v) = b :: cls_train_iter v'
          ∧ iter_calls v' = S (iter_calls v) ∧ b_iter v' = Some b).
Proof.
  unfold cls_micro_batch, next_cls. intros Hrun. bind_inv Hrun.
  injection Hrun as <-. destruct (cls_train_iter v) as [|b rest] eqn:Hit.
  - destruct (pass train (iter_calls v)) as [|b rest] eqn:Hp; [discriminate|].
    injection Ha as <-. simpl. repeat split; eauto.
  - injection Ha as <-. simpl. repeat split; eauto. discriminate.
Qed.


Lemma repeat_cls_spec (n : nat) :
  ∀ v v', repeat_n n cls_mb v = Ok v' →
  finish_epoch v' = finish_epoch v ∧ aug_train_iter v' = aug_train_iter v
  ∧ freq v' = freq v ∧ ((0 < n)%nat → is_Some (b_iter v')).
Proof.
  induction n as [|n IH]; intros v v' Hrun; simpl in Hrun.
  - injection Hrun as <-. repeat split. lia.
  - bind_inv Hrun. apply cls_micro_batch_spec in Ha.
    destruct Ha as (Hf & Ha & Hq & Hb & _).
    destruct (IH _ _ Hrun) as (Hf' & Ha' & Hq' & Hb').
    repeat split; try congruence. intros _.
    destruct n as [|n]; [|apply Hb'; lia].
    simpl in Hrun. injection Hrun as <-. exact Hb.
Qed.


(** What an augmenter micro-batch does to the loop variables. *)
Lemma aug_micro_batch_spec (v v' : loop_vars) :
  aug_mb v = Ok v' →
  b_iter v' = b_iter v ∧ freq v' = freq v
  ∧ match aug_train_iter v with
    | _ :: rest => aug_train_iter v' = rest ∧ finish_epoch v' = finish_epoch v
    | [] => finish_epoch v' = true
            ∧ ∃ b, pass aug_train (iter_calls v) = b :: aug_train_iter v'
    end.
Proof.
  unfold aug_micro_batch, next_aug. intros Hrun. bind_inv Hrun. bind_inv Hrun.
  injection Hrun as <-. destruct (aug_train_iter v) as [|b rest] eqn:Hit.
  - destruct (pass aug_train (iter_calls v)) as [|b rest] eqn:Hp; [discriminate|].
    injection Ha as <-. simpl. repeat split; eauto.
  - injection Ha as <-. simpl. repeat split; eauto.
Qed.


(** The flag, once set, stays set through the accumulation. *)
Lemma aug_micro_batch_flag_stays (v v' : loop_vars) :
  aug_mb v = Ok v' → finish_epoch v = true → finish_epoch v' = true.
Proof.
  intros Hrun Hf. apply aug_micro_batch_spec in Hrun.
  destruct Hrun as (_ & _ & Hcase).
  destruct (aug_train_iter v); [tauto|]. destruct Hcase. congruence.
Qed.

Lemma repeat_aug_flag_stays (n : nat) :
  ∀ v v', repeat_n n aug_mb v = Ok v' → finish_epoch v = true →
  finish_epoch v' = true.
Proof.
  induction n as [|n IH]; intros v v' Hrun Hf; simpl in Hrun.
  - injection Hrun as <-. exact Hf.
  - bind_inv Hrun. eapply IH; [eassumption|].
    eapply aug_micro_batch_flag_stays; eassumption.
Qed.

(** [n] augmenter micro-batches: either the iterator had them all, or it
    ran out on the way and the flag is set. *)
Lemma repeat_aug_spec (n : nat) :
  ∀ v v', repeat_n n aug_mb v = Ok v' →
  freq v' = freq v
  ∧ ((n <= length (aug_train_iter v))%nat →
     length (aug_train_iter v') = (length (aug_train_iter v) - n)%nat
     ∧ finish_epoch v' = finish_epoch v)
  ∧ ((length (aug_train_iter v) < n)%nat → finish_epoch v' = true).
Proof.
  induction n as [|n IH]; intros v v' Hrun; simpl in Hrun.
  - injection Hrun as <-. repeat split; lia.
  - bind_inv Hrun. pose proof Ha as Hstep.
    apply aug_micro_batch_spec in Ha. destruct Ha as (_ & Hq & Hcase).
    destruct (IH _ _ Hrun) as (Hq' & Hfull & Hshort).
    split; [congruence|].
    destruct (aug_train_iter v) as [|b rest] eqn:Hit; simpl.
    + destruct Hcase as [Hset _]. split; [lia|]. intros _.
      eapply repeat_aug_flag_stays; eassumption.
    + destruct Hcase as [Hrest Hsame]. rewrite Hrest in Hfull, Hshort. split.
      * intros Hle. destruct Hfull as [Hl Hf]; [lia|]. split; [lia|congruence].
      * intros Hlt. apply Hshort. lia.
Qed.

End Sources.

Section Rounds.
Import Training.
Context (train aug_train : DataLoader).
Context (retokenize : tensor_expr → array * array * array).
Context (cfg : config).
Context (train_nonempty : ∀ n, pass train n ≠ []).
Context (aug_train_nonempty : ∀ n, pass aug_train n ≠ []).
Context (accumulate_pos : (0 < num_grad_accumulate cfg)%nat).
Context (print_freq_nonzero : print_freq cfg ≠ 0%nat).

#[local] Abbreviation round_fn := (round train aug_train retokenize cfg).
#[local] Abbreviation loop_fn := (inner_loop train aug_train retokenize cfg).





(** More fuel does not change the outcome. *)
Lemma inner_loop_fuel (fuel : nat) :
  ∀ epoch v v', loop_fn fuel epoch v = Ok (Some v') →
  ∀ extra, loop_fn (fuel + extra) epoch v = Ok (Some v').
Proof.
  induction fuel as [|fuel IH]; intros epoch v v' Hrun extra; [discriminate|].
  simpl in *. destruct (round train aug_train retokenize cfg epoch v) as [v1|e];
    [|discriminate].
  simpl in *. destruct (finish_epoch v1); [assumption|]. apply IH. assumption.
Qed.
End Rounds.



(** On the small run the augmenter's two batches are used up by rounds 1
    and 2; round 3 finds the iterator exhausted and ends the loop. *)
Example toy_inner_loop_rounds :
  Training.inner_loop Training.toy_train Training.toy_aug_train
    Training.toy_retokenize Training.toy_cfg 2 1
    (Training.initial_vars Training.toy_train Training.toy_aug_train)
  = Ok None
  ∧ fmap (M:=result) (fmap (M:=option) Training.finish_epoch)
      (Training.inner_loop Training.toy_train Training.toy_aug_train
         Training.toy_retokenize Training.toy_cfg 3 1
         (Training.initial_vars Training.toy_train Training.toy_aug_train))
    = Ok (Some true)
  ∧ fmap (M:=result) (fmap (M:=option) Training.freq)
      (Training.inner_loop Training.toy_train Training.toy_aug_train
         Training.toy_retokenize Training.toy_cfg 3 1
         (Training.initial_vars Training.toy_train Training.toy_aug_train))
    = Ok (Some 3%nat).
Proof. repeat split. Qed.

(** ** The loss of an augmenter micro-batch *)

Section AugmenterLoss.
Import Training.
Context (aug_train : DataLoader).
Context (retokenize : tensor_expr → array * array * array).
Context (cfg : config).

(** The loss handed to [backward] is the sum of the regulariser times 10,
    the reconstruction cross-entropy and the flatten-confidence loss. The
    target of the cross-entropy is the local [src_sequence], which the
    classifier phase bound last: not the batch just fetched. *)
Lemma aug_micro_batch_backward (v v' : loop_vars) :
  aug_micro_batch aug_train retokenize cfg v = Ok v' →
  ∃ aug_b cls_b,
    aug_b_iter v' = Some aug_b ∧ b_iter v = Some cls_b
    ∧ trace v'
      = trace v
        ++ [Backward
              (Plus (Plus (mmd_loss_of cfg aug_b)
                          (ce_loss_of cfg aug_b (b_sequence cls_b)))
                    (new_loss_of retokenize cfg aug_b))].
Proof.
  unfold aug_micro_batch. intros Hrun. bind_inv Hrun. bind_inv Hrun.
  injection Hrun as <-. simpl in Ha0.
  assert (Hb : b_iter a.2 = b_iter v).
  { unfold next_aug in Ha. destruct (aug_train_iter v).
    - destruct (pass aug_train (iter_calls v)); [discriminate|].
      injection Ha as <-. reflexivity.
    - injection Ha as <-. reflexivity. }
  rewrite Hb in Ha0. destruct (b_iter v) as [cls_b|] eqn:Hcls; [|discriminate].
  injection Ha0 as <-. exists a.1, cls_b. simpl.
  assert (Ht : trace a.2 = trace v).
  { unfold next_aug in Ha. destruct (aug_train_iter v).
    - destruct (pass aug_train (iter_calls v)); [discriminate|].
      injection Ha as <-. reflexivity.
    - injection Ha as <-. reflexivity. }
  rewrite Ht. auto.
Qed.

(** The flatten-confidence term: the mean of [exp(uniform - confidence)],
    the confidence being a softmax computed without gradient tracking. *)
Lemma new_loss_shape (aug_b : Batch) :
  ∃ rows ids att seg,
    new_loss_of retokenize cfg aug_b
    = Mean (Exp (Sub (Full rows (num_labels cfg)
                        (1 / inject_Z (Z.of_nat (num_labels cfg)))%Q)
                     (NoGrad (Softmax (ClsLogit ids att seg))))).
Proof.
  unfold new_loss_of. destruct (retokenize _) as [[ids seg] att]. eauto.
Qed.
End AugmenterLoss.

(** C2 (the code departs from it). In the first round of the small run the
    classifier phase has drawn [batch_x] (tokens 101 7 102) and the
    augmenter micro-batch draws [batch_y] (tokens 101 8 9). The loss
    handed to [backward] is the sum of three terms, the regulariser times
    10, a cross-entropy that ignores the pad id, and the mean of
    [exp(uniform - confidence)] with the confidence computed without
    gradient; but the cross-entropy compares the decoder output for
    [batch_y] with the tokens of [batch_x], the classifier's batch. *)
Theorem reconstruction_target_is_classifier_batch :
  ∃ v',
    Training.aug_micro_batch Training.toy_aug_train Training.toy_retokenize
      Training.toy_cfg Training.toy_after_cls = Ok v'
    ∧ Training.aug_b_iter v' = Some Training.batch_y
    ∧ last (Training.trace v')
      = Some (Training.Backward
          (Training.Plus
             (Training.Plus
                (Training.Times
                   (Training.MaximumMeanDiscrepancy
                      (Training.ViewRows 1
                         (Training.AugZ [[101; 8; 9]] [[1; 1; 1]] [[0; 0; 0]])))
                   10)
                (Training.recon_loss 0
                   (Training.ViewCols 30
                      (Training.AugDecoderOut
                         [[101; 8; 9]] [[1; 1; 1]] [[0; 0; 0]]))
                   [101; 7; 102]))
             (Training.Mean
                (Training.Exp
                   (Training.Sub
                      (Training.Full 1 2 (1 / inject_Z 2)%Q)
                      (Training.NoGrad
                         (Training.Softmax
                            (Training.ClsLogit
                               [[101; 8; 102]] [[1; 1; 1]] [[0; 0; 0]]))))))))
    ∧ concat (Training.b_sequence Training.batch_x) = [101; 7; 102]
    ∧ concat (Training.b_sequence Training.batch_y) = [101; 8; 9]
    ∧ Training.cls_micro_batch Training.toy_train Training.toy_cfg
        (Training.emit [Training.ZeroGrad Training.Cls]
           (Training.initial_vars Training.toy_train Training.toy_aug_train))
      = Ok Training.toy_after_cls.
Proof. eexists. repeat split. Qed.

(** ** Online augmentation *)

Section Augmentation.
Import Training.
Context (aug_train : DataLoader).
Context (retokenize : tensor_expr → array * array * array).

(** The tokenizer's mapping has the key [attention_mask], and no key
    [attetntion_mask]. *)
Lemma batch_encoding_keys (out : array * array * array) :
  is_Some (batch_encoding out !! "attention_mask"%string)
  ∧ batch_encoding out !! "attetntion_mask"%string = None.
Proof.
  destruct out as [[ids seg] att]. split; [exists att|]; vm_compute; reflexivity.
Qed.

(** The body of the loop raises at line 394, whatever the corpus and the
    batch drawn. *)
Lemma augment_one_raises (aug_batch_iter src_vars : option Batch) (c : corpus)
    (batch_iter : Batch) :
  is_ok (augment_one retokenize aug_batch_iter src_vars c batch_iter) = false
  ∧ (is_Some aug_batch_iter → is_Some src_vars →
     augment_one retokenize aug_batch_iter src_vars c batch_iter
     = Raise (KeyError "attetntion_mask")).
Proof.
  unfold augment_one.
  destruct aug_batch_iter as [aug_b|], src_vars as [src|]; simpl;
    try (split; [reflexivity|]; intros [? ?] [? ?]; discriminate).
  destruct (retokenize _) as [[ids seg] att]. split; [reflexivity|].
  intros _ _. reflexivity.
Qed.

(** A pass over an empty loader appends nothing. *)
Lemma augmentation_pass_empty (calls : nat) (aug_batch_iter src_vars : option Batch)
    (c : corpus) :
  pass aug_train calls = [] →
  augmentation_pass aug_train retokenize calls aug_batch_iter src_vars c = Ok c.
Proof. intros Hp. unfold augmentation_pass. rewrite Hp. reflexivity. Qed.
End Augmentation.

(** C3 (the code departs from it). Whenever the augmenter's training
    loader yields a batch, the augmentation pass appends nothing: its
    first iteration raises at line 394, where the tokenizer's output is
    indexed with the key [attetntion_mask], so the classifier's training
    set is not rebuilt and keeps its size. *)
Theorem augmentation_pass_raises
    (aug_train : Training.DataLoader)
    (retokenize : Training.tensor_expr
                  → Training.array * Training.array * Training.array)
    (calls : nat) (aug_batch_iter src_vars : option Training.Batch)
    (c : Training.corpus) :
  Training.pass aug_train calls ≠ [] →
  is_ok (Training.augmentation_pass aug_train retokenize calls
           aug_batch_iter src_vars c) = false
  ∧ (is_Some aug_batch_iter → is_Some src_vars →
     Training.augmentation_pass aug_train retokenize calls
       aug_batch_iter src_vars c
     = Raise (KeyError "attetntion_mask")).
Proof.
  intros Hne. unfold Training.augmentation_pass.
  destruct (Training.pass aug_train calls) as [|b rest]; [contradiction|].
  simpl.
  destruct (augment_one_raises retokenize aug_batch_iter src_vars c b)
    as [Hfail Hkey].
  split.
  - destruct (Training.augment_one _ _ _ _ _); [discriminate|reflexivity].
  - intros Ha Hs. rewrite (Hkey Ha Hs). reflexivity.
Qed.

Lemma augmentation_pass_raises_witness :
  Training.augmentation_pass Training.toy_aug_train Training.toy_retokenize 3
    (Some Training.batch_y) (Some Training.batch_x) Training.toy_corpus
  = Raise (KeyError "attetntion_mask").
Proof.
  refine (proj2 (augmentation_pass_raises Training.toy_aug_train
                   Training.toy_retokenize 3 (Some Training.batch_y)
                   (Some Training.batch_x) Training.toy_corpus _) _ _).
  - discriminate.
  - eexists. reflexivity.
  - eexists. reflexivity.
Defined.

(** ** The mask helpers *)

Section MaskFacts.
Import Masks.

Lemma any_eq_scalar (t : tensor Z) (p : Z) :
  any (eq_scalar t p) = true ↔ p ∈ data t.
Proof.
  unfold any, eq_scalar. simpl. rewrite existsb_exists. split.
  - intros (b & Hin & Hb). apply in_map_iff in Hin. destruct Hin as (x & Hx & Hin).
    unfold id in Hb. subst b. apply Z.eqb_eq in Hb. subst x.
    apply list_elem_of_In. exact Hin.
  - intros Hin. exists true. split; [|reflexivity].
    apply in_map_iff. exists p. split; [apply Z.eqb_refl|].
    apply list_elem_of_In. exact Hin.
Qed.

Lemma eq_scalar_lookup (t : tensor Z) (c : Z) (i : nat) (x : Z) :
  data t !! i = Some x → data (eq_scalar t c) !! i = Some (bool_decide (x = c)).
Proof.
  intros Hx. unfold eq_scalar. simpl. rewrite lookup_map, Hx. simpl. f_equal.
  destruct (Z.eqb_spec x c) as [->|Hne].
  - rewrite bool_decide_eq_true_2; reflexivity.
  - rewrite bool_decide_eq_false_2; [reflexivity|assumption].
Qed.

(** With a padding index [make_padding_mask] always returns. *)
Lemma make_padding_mask_returns (input_ids : Masks.tensor Z) (p : Z) :
  ∃ r, Masks.make_padding_mask input_ids (Some p) = Masks.Return r.
Proof.
  unfold Masks.make_padding_mask.
  destruct (Masks.any (Masks.eq_scalar input_ids p)); eexists; reflexivity.
Qed.
End MaskFacts.

(** X1. [make_padding_mask] returns [None] exactly when no entry of the
    input equals the padding index; otherwise it returns a mask of the
    input's shape that is true exactly at the entries equal to it. *)
Theorem make_padding_mask_spec (input_ids : Masks.tensor Z) (p : Z) :
  ∃ r, Masks.make_padding_mask input_ids (Some p) = Masks.Return r
       ∧ (r = None ↔ p ∉ Masks.data input_ids)
       ∧ ∀ m, r = Some m →
           Masks.shape m = Masks.shape input_ids
           ∧ length (Masks.data m) = length (Masks.data input_ids)
           ∧ ∀ i x, Masks.data input_ids !! i = Some x →
                    Masks.data m !! i = Some (bool_decide (x = p)).
Proof.
  unfold Masks.make_padding_mask.
  destruct (Masks.any (Masks.eq_scalar input_ids p)) eqn:Hany; simpl.
  - eexists. split; [reflexivity|]. apply any_eq_scalar in Hany.
    split; [split; [discriminate|contradiction]|].
    intros m Hm. injection Hm as <-. split; [reflexivity|].
    split; [simpl; apply length_map|]. intros i x. apply eq_scalar_lookup.
  - eexists. split; [reflexivity|]. split; [|discriminate].
    split; [|reflexivity]. intros _ Hin. apply any_eq_scalar in Hin. congruence.
Qed.

(** A mask that is not a matrix fails the assertion of line 293. *)
Lemma invert_mask_asserts_matrix (att : Masks.tensor Z) :
  Masks.dim att ≠ 2%nat → Masks.invert_mask att = Masks.Throw Masks.AssertionError.
Proof.
  intros Hdim. unfold Masks.invert_mask.
  destruct (Nat.eqb_spec (Masks.dim att) 2); [contradiction|reflexivity].
Qed.

(** X2. [invert_mask] refuses a mask that is not a matrix, and on a matrix
    it is true exactly where the attention mask is 0. For an attention
    mask that is 0 exactly at the pad tokens of a token matrix, it marks
    the same positions as [make_padding_mask] on the tokens; the two differ
    only when there is no pad token, where [make_padding_mask] gives [None]
    and [invert_mask] a mask that is false everywhere. *)
Theorem invert_mask_agrees_with_padding_mask
    (ids att : Masks.tensor Z) (p : Z) :
  Masks.dim att = 2%nat →
  Masks.shape att = Masks.shape ids →
  Forall2 (λ a x, a = 0 ↔ x = p) (Masks.data att) (Masks.data ids) →
  (∃ m, Masks.invert_mask att = Masks.Return m
        ∧ (∀ i a, Masks.data att !! i = Some a →
                  Masks.data m !! i = Some (bool_decide (a = 0)))
        ∧ (Masks.make_padding_mask ids (Some p) = Masks.Return (Some m)
           ∨ (Masks.make_padding_mask ids (Some p) = Masks.Return None
              ∧ Masks.any m = false)))
  ∧ (∀ other : Masks.tensor Z, Masks.dim other ≠ 2%nat →
       Masks.invert_mask other = Masks.Throw Masks.AssertionError).
Proof.
  intros Hdim Hshape Hall. split; [|apply invert_mask_asserts_matrix].
  unfold Masks.invert_mask. rewrite Hdim. simpl.
  eexists. split; [reflexivity|]. split.
  { intros i a. apply eq_scalar_lookup. }
  assert (Heq : Masks.eq_scalar att 0 = Masks.eq_scalar ids p).
  { unfold Masks.eq_scalar. rewrite Hshape. f_equal.
    induction Hall as [|a x la lx Hax _ IH]; [reflexivity|]. simpl.
    rewrite IH. f_equal.
    destruct (Z.eqb_spec a 0) as [Ha|Ha], (Z.eqb_spec x p) as [Hx|Hx];
      try reflexivity; tauto. }
  unfold Masks.make_padding_mask. rewrite Heq.
  destruct (Masks.any (Masks.eq_scalar ids p)); simpl; auto.
Qed.

Lemma invert_mask_agrees_with_padding_mask_witness :
  ∃ m, Masks.invert_mask (Masks.Tensor [1; 3]%nat [1; 1; 0]) = Masks.Return m
       ∧ (∀ i a, [1; 1; 0] !! i = Some a →
                 Masks.data m !! i = Some (bool_decide (a = 0)))
       ∧ (Masks.make_padding_mask (Masks.Tensor [1; 3]%nat [101; 7; 0]) (Some 0)
          = Masks.Return (Some m)
          ∨ (Masks.make_padding_mask (Masks.Tensor [1; 3]%nat [101; 7; 0]) (Some 0)
             = Masks.Return None
             ∧ Masks.any m = false)).
Proof.
  refine (proj1 (invert_mask_agrees_with_padding_mask
                   (Masks.Tensor [1; 3]%nat [101; 7; 0])
                   (Masks.Tensor [1; 3]%nat [1; 1; 0]) 0 _ _ _)).
  - reflexivity.
  - reflexivity.
  - repeat constructor; intros H; discriminate H.
Defined.


(** X3. The causal mask built at line 265 for [tgt_len] positions is a
    [tgt_len] x [tgt_len] matrix whose entry (i, j) is minus infinity when
    j > i and zero otherwise: position i sees itself and the positions
    before it, and none after. *)
Theorem causal_mask_hides_the_future
    {score : Type} `{ops : Generate.ScoreOps score} (tgt_len i j : nat) :
  (i < tgt_len)%nat → (j < tgt_len)%nat →
  ∃ t : Masks.tensor score,
    Masks.causal_mask tgt_len = Ok t
    ∧ Masks.shape t = [tgt_len; tgt_len]
    ∧ length (Masks.data t) = (tgt_len * tgt_len)%nat
    ∧ Masks.entry tgt_len t i j
      = Some (if Nat.ltb i j then Generate.s_neg_inf else Generate.s_zero).
Proof.
  intros Hi Hj. unfold Masks.causal_mask, Masks.triu. simpl.
  eexists. split; [reflexivity|]. split; [reflexivity|]. simpl. split.
  { rewrite length_imap, length_map, length_replicate. reflexivity. }
  unfold Masks.entry. simpl.
  assert (Hlt : (i * tgt_len + j < tgt_len * tgt_len)%nat) by nia.
  rewrite list_lookup_imap, lookup_map, lookup_replicate_2 by exact Hlt.
  simpl. f_equal.
  rewrite Nat.div_add_l by lia. rewrite (Nat.div_small j) by lia.
  replace (i * tgt_len + j)%nat with (j + i * tgt_len)%nat by lia.
  rewrite Nat.Div0.mod_add, Nat.mod_small by lia.
  destruct (Nat.leb_spec (i + 0 + 1) j), (Nat.ltb_spec i j); try reflexivity; lia.
Qed.

Lemma causal_mask_hides_the_future_witness :
  ∃ t : Masks.tensor Generate.qscore,
    Masks.causal_mask 3 = Ok t
    ∧ Masks.shape t = [3; 3]%nat
    ∧ length (Masks.data t) = 9%nat
    ∧ Masks.entry 3 t 1 2 = Some Generate.NegInf.
Proof.
  refine (causal_mask_hides_the_future 3 1 2 _ _); lia.
Defined.

(** X4. [_prepare_bart_decoder_inputs] cannot build the decoder inputs
    itself: when [decoder_input_ids] is left out it calls
    [shift_tokens_right] with two arguments, and the call raises
    [TypeError] whatever the inputs are. Given decoder inputs of shape
    (bsz, tgt_len) and a pad id, and no mask, it returns the inputs as
    they are, the padding mask of [make_padding_mask] and the causal mask
    for [tgt_len]; without a pad id it raises [TypeError]. *)
Theorem prepare_bart_decoder_inputs_cases
    {score : Type} `{ops : Generate.ScoreOps score}
    (pad_token_id : option Z) (input_ids : Shift.tensor)
    (decoder_padding_mask : option (Masks.tensor Z))
    (ids : Masks.tensor Z) (bsz tgt_len : nat) (p : Z) :
  Masks.shape ids = [bsz; tgt_len] →
  Masks._prepare_bart_decoder_inputs (score:=score) pad_token_id input_ids None
    decoder_padding_mask
  = Masks.Throw (Masks.TypeError
      "shift_tokens_right() missing required positional argument")
  ∧ (∃ mask causal,
       Masks._prepare_bart_decoder_inputs (score:=score) (Some p) input_ids
         (Some ids) None
       = Masks.Return (ids, mask, causal)
       ∧ Masks.make_padding_mask ids (Some p) = Masks.Return mask
       ∧ Masks.causal_mask tgt_len = Ok causal)
  ∧ Masks._prepare_bart_decoder_inputs (score:=score) None input_ids
      (Some ids) None
    = Masks.Throw (Masks.TypeError
        "eq() received an invalid combination of arguments").
Proof.
  intros Hshape. split; [reflexivity|]. split.
  - unfold Masks._prepare_bart_decoder_inputs.
    cbn [mbind Masks.outcome_bind]. unfold Masks.size2. rewrite Hshape.
    cbn [mbind Masks.outcome_bind snd].
    destruct (make_padding_mask_returns ids p) as (mask & Hmask).
    rewrite Hmask. simpl. eexists _, _. split; [reflexivity|]. split; reflexivity.
  - unfold Masks._prepare_bart_decoder_inputs. simpl.
    unfold Masks.size2. rewrite Hshape. reflexivity.
Qed.

Lemma prepare_bart_decoder_inputs_cases_witness :
  Masks._prepare_bart_decoder_inputs (score:=Generate.qscore) (Some 0)
    (Shift.Tensor 3 [[101; 7; 0]]) None None
  = Masks.Throw (Masks.TypeError
      "shift_tokens_right() missing required positional argument").
Proof.
  refine (proj1 (prepare_bart_decoder_inputs_cases (score:=Generate.qscore)
                   (Some 0) (Shift.Tensor 3 [[101; 7; 0]]) None
                   (Masks.Tensor [1; 3]%nat [101; 7; 0]) 1 3 0 _)).
  reflexivity.
Defined.

(** ** Checkpoints: saving, resuming, the best loss *)

Section CheckpointFacts.
Import Training.
Context {SD : Type}.

Lemma restore_checkpoint_dict (epoch : nat) (s : @snapshot SD) :
  Resume.restore (checkpoint_dict epoch s) = Masks.Return (Z.of_nat epoch - 1, s).
Proof. destruct s. vm_compute. reflexivity. Qed.

Lemma Qltb_true (x y : Q) : Qltb x y = true ↔ (x < y)%Q.
Proof.
  unfold Qltb. rewrite negb_true_iff. split.
  - intros H. apply Qnot_le_lt. intros Hle. apply Qle_bool_iff in Hle. congruence.
  - intros H. destruct (Qle_bool y x) eqn:E; [|reflexivity].
    apply Qle_bool_iff in E. exfalso. exact (Qlt_not_le _ _ H E).
Qed.

Lemma Qltb_false (x y : Q) : Qltb x y = false ↔ (y <= x)%Q.
Proof. unfold Qltb. rewrite negb_false_iff. apply Qle_bool_iff. Qed.

(** One checkpoint block: the best loss stays finite and does not grow,
    and it is no larger than the loss of the epoch when that is finite. *)
Lemma checkpoint_block_best (file : string) (epoch : nat) (val : float)
    (s : @snapshot SD) (b b' : best) (evs : list (@ckpt_event SD)) (v : Q) :
  checkpoint_block file epoch val s b = Ok (b', evs) →
  value (best_val_loss b) = Finite v →
  ∃ v', value (best_val_loss b') = Finite v' ∧ (v' <= v)%Q
        ∧ ∀ x, val = Finite x → (v' <= x)%Q.
Proof.
  unfold checkpoint_block. intros Hrun Hv. rewrite Hv in Hrun.
  destruct (float_ltb val (Finite v)) eqn:Hlt.
  - injection Hrun as <- <-. destruct val as [x|]; [|discriminate].
    simpl in Hlt. apply Qltb_true in Hlt. exists x. simpl.
    split; [reflexivity|]. split; [apply Qlt_le_weak; exact Hlt|].
    intros x' Hx'. injection Hx' as <-. apply Qle_refl.
  - bind_inv Hrun. bind_inv Hrun. injection Hrun as <- <-.
    exists v. split; [exact Hv|]. split; [apply Qle_refl|].
    intros x ->. simpl in Hlt. apply Qltb_false in Hlt. exact Hlt.
Qed.
End CheckpointFacts.

(** X5. A checkpoint written by the checkpoint block at the end of epoch e
    can be restored in full: [restore] gives back the seven saved states,
    and sets the start epoch to e - 1, so that a resumed run begins by
    running epoch e again. *)
Theorem checkpoint_round_trip
    {SD : Type} (file : string) (epoch : nat) (val : Training.float)
    (s : @Training.snapshot SD) (b b' : Training.best)
    (evs : list (@Training.ckpt_event SD))
    (d : gmap string (@Training.ckpt_value SD)) (num_epochs : Z) :
  Training.checkpoint_block file epoch val s b = Ok (b', evs) →
  d ∈ Training.saves evs →
  (Z.of_nat epoch <= num_epochs)%Z →
  Resume.restore d = Masks.Return (Z.of_nat epoch - 1, s)
  ∧ head (Resume.epochs_to_run (Z.of_nat epoch - 1) num_epochs)
    = Some (Z.of_nat epoch).
Proof.
  unfold Training.checkpoint_block. intros Hrun Hd Hle. split.
  - destruct (Training.float_ltb _ _).
    + injection Hrun as <- <-. simpl in Hd.
      apply list_elem_of_singleton in Hd. subst d. apply restore_checkpoint_dict.
    + bind_inv Hrun. bind_inv Hrun. injection Hrun as <- <-. simpl in Hd.
      apply elem_of_nil in Hd. contradiction.
  - unfold Resume.epochs_to_run.
    replace (Z.to_nat (num_epochs + 1 - (Z.of_nat epoch - 1 + 1)))
      with (S (Z.to_nat (num_epochs - Z.of_nat epoch))) by lia.
    simpl. f_equal. lia.
Qed.

Lemma checkpoint_round_trip_witness :
  Resume.restore
    (Training.checkpoint_dict 3
       (Training.MkSnapshot 10 20 30 40 50 60 70)%nat)
  = Masks.Return (2, (Training.MkSnapshot 10 20 30 40 50 60 70)%nat)
  ∧ head (Resume.epochs_to_run 2 5) = Some 3.
Proof.
  refine (checkpoint_round_trip "ckpt" 3 (Training.Finite (1 # 2))
            (Training.MkSnapshot 10 20 30 40 50 60 70)%nat
            Training.initial_best
            (Training.MkBest (Training.Tensor0 (Training.Finite (1 # 2))) (Some 3%nat))
            [Training.LogMessage Training.CheckpointSaving;
             Training.TorchSave
               (Training.checkpoint_dict 3
                  (Training.MkSnapshot 10 20 30 40 50 60 70)%nat) "ckpt"]
            _ 5 _ _ _).
  - reflexivity.
  - simpl. left.
  - lia.
Defined.

(** X6. There is no partial resume: a checkpoint that lacks any of the
    eight entries cannot be restored. *)
Theorem restore_needs_every_key
    {SD : Type} (d : gmap string (@Training.ckpt_value SD)) (key : string) :
  key ∈ Resume.checkpoint_keys → d !! key = None →
  ∃ e, Resume.restore d = Masks.Throw e.
Proof.
  intros Hkey Hnone. unfold Resume.restore, Resume.get_key.
  unfold Resume.checkpoint_keys in Hkey.
  destruct (d !! "epoch"%string) as [[e0|?]|] eqn:H0;
    try (eexists; reflexivity).
  destruct (d !! "cls_model"%string) as [[?|s1]|] eqn:H1;
    try (eexists; reflexivity).
  destruct (d !! "aug_model"%string) as [[?|s2]|] eqn:H2;
    try (eexists; reflexivity).
  destruct (d !! "cls_optimizer"%string) as [[?|s3]|] eqn:H3;
    try (eexists; reflexivity).
  destruct (d !! "aug_optimizer"%string) as [[?|s4]|] eqn:H4;
    try (eexists; reflexivity).
  destruct (d !! "cls_scheduler"%string) as [[?|s5]|] eqn:H5;
    try (eexists; reflexivity).
  destruct (d !! "aug_scheduler"%string) as [[?|s6]|] eqn:H6;
    try (eexists; reflexivity).
  destruct (d !! "scaler"%string) as [[?|s7]|] eqn:H7;
    try (eexists; reflexivity).
  exfalso.
  repeat (apply elem_of_cons in Hkey; destruct Hkey as [->|Hkey]; [congruence|]).
  apply elem_of_nil in Hkey. exact Hkey.
Qed.

Lemma restore_needs_every_key_witness :
  ∃ e, Resume.restore
         (delete "scaler"%string
            (Training.checkpoint_dict 3
               (Training.MkSnapshot 10 20 30 40 50 60 70)%nat))
       = Masks.Throw e.
Proof.
  refine (restore_needs_every_key _ "scaler" _ _).
  - unfold Resume.checkpoint_keys. do 7 (apply elem_of_cons; right).
    apply elem_of_cons. left. reflexivity.
  - vm_compute. reflexivity.
Defined.

(** X7. As long as no checkpoint has been written in the run (at its
    start, or after a resume), an epoch whose validation loss is not below
    the recorded best makes the checkpoint block raise
    [UnboundLocalError]: the message it builds reads [best_epoch], which
    is assigned only when a checkpoint is written. A loss that is NaN is
    such a loss. *)
Theorem checkpoint_block_before_first_save
    {SD : Type} (file : string) (epoch : nat) (val : Training.float)
    (s : @Training.snapshot SD) (b : Training.best) :
  Training.best_epoch b = None →
  Training.float_ltb val (Training.value (Training.best_val_loss b)) = false →
  Training.checkpoint_block file epoch val s b
  = Raise (UnboundLocalError "best_epoch")
  ∧ Training.checkpoint_block file epoch Training.NaN s b
    = Raise (UnboundLocalError "best_epoch").
Proof.
  intros Hnone Hlt. unfold Training.checkpoint_block.
  rewrite Hlt, Hnone. split; reflexivity.
Qed.

Lemma checkpoint_block_before_first_save_witness :
  Training.checkpoint_block "ckpt" 1 (Training.Finite 1000)
    (Training.MkSnapshot 10 20 30 40 50 60 70)%nat Training.initial_best
  = Raise (UnboundLocalError "best_epoch")
  ∧ Training.checkpoint_block "ckpt" 1 Training.NaN
      (Training.MkSnapshot 10 20 30 40 50 60 70)%nat Training.initial_best
    = Raise (UnboundLocalError "best_epoch").
Proof.
  refine (checkpoint_block_before_first_save "ckpt" 1 (Training.Finite 1000)
            (Training.MkSnapshot 10 20 30 40 50 60 70)%nat
            Training.initial_best _ _); reflexivity.
Defined.

Section BestLoss.
Import Training.
Context {SD : Type}.

Lemma run_checkpoints_best (file : string)
    (epochs : list (nat * float * @snapshot SD)) :
  ∀ (b b' : best) (evs0 evs : list (@ckpt_event SD)) (v : Q),
  for_each (λ acc e,
              r ← checkpoint_block file e.1.1 e.1.2 e.2 acc.1;
              Ok (r.1, acc.2 ++ r.2))
           (b, evs0) epochs = Ok (b', evs) →
  value (best_val_loss b) = Finite v →
  ∃ v', value (best_val_loss b') = Finite v' ∧ (v' <= v)%Q
        ∧ ∀ e x s, (e, Finite x, s) ∈ epochs → (v' <= x)%Q.
Proof.
  induction epochs as [|[[e val] s] epochs IH]; intros b b' evs0 evs v Hrun Hv.
  - simpl in Hrun. injection Hrun as <- <-. exists v.
    split; [exact Hv|]. split; [apply Qle_refl|].
    intros e x s Hin. apply elem_of_nil in Hin. contradiction.
  - simpl in Hrun. bind_inv Hrun. bind_inv Ha. injection Ha as <-.
    destruct a0 as [b1 evs1]. simpl in *.
    destruct (checkpoint_block_best _ _ _ _ _ _ _ _ Ha0 Hv) as (v1 & Hv1 & Hle1 & Hx1).
    destruct (IH _ _ _ _ _ Hrun Hv1) as (v' & Hv' & Hle' & Hall).
    exists v'. split; [exact Hv'|]. split; [eapply Qle_trans; eassumption|].
    intros e0 x s0 Hin. apply elem_of_cons in Hin. destruct Hin as [Heq|Hin].
    + injection Heq as He Hval Hs. eapply Qle_trans; [exact Hle'|].
      apply Hx1. symmetry. exact Hval.
    + eapply Hall. exact Hin.
Qed.
End BestLoss.

(** X8. Along the epochs of a run the recorded best validation loss never
    grows: after any number of checkpoint blocks that complete, it is at
    most 1000, the value it starts from, and at most every finite
    validation loss the run has seen. *)
Theorem best_loss_is_a_lower_bound
    {SD : Type} (file : string)
    (epochs : list (nat * Training.float * @Training.snapshot SD))
    (b' : Training.best) (evs : list (@Training.ckpt_event SD)) :
  Resume.run_checkpoints file epochs Training.initial_best = Ok (b', evs) →
  ∃ v', Training.value (Training.best_val_loss b') = Training.Finite v'
        ∧ (v' <= 1000)%Q
        ∧ ∀ e x s, (e, Training.Finite x, s) ∈ epochs → (v' <= x)%Q.
Proof.
  intros Hrun. unfold Resume.run_checkpoints in Hrun.
  eapply run_checkpoints_best; [exact Hrun|reflexivity].
Qed.

Lemma best_loss_is_a_lower_bound_witness :
  ∃ v', Training.value
          (Training.best_val_loss
             (Training.MkBest (Training.Tensor0 (Training.Finite (1 # 4)))
                (Some 2%nat)))
        = Training.Finite v'
        ∧ (v' <= 1000)%Q
        ∧ ∀ e x s,
            (e, Training.Finite x, s)
            ∈ [ (1%nat, Training.Finite (1 # 2), Training.MkSnapshot 1 1 1 1 1 1 1);
                (2%nat, Training.Finite (1 # 4), Training.MkSnapshot 2 2 2 2 2 2 2);
                (3%nat, Training.Finite (1 # 3), Training.MkSnapshot 3 3 3 3 3 3 3) ]%nat →
            (v' <= x)%Q.
Proof.
  refine (best_loss_is_a_lower_bound "ckpt" _ _
            [ Training.LogMessage Training.CheckpointSaving;
              Training.TorchSave
                (Training.checkpoint_dict 1 (Training.MkSnapshot 1 1 1 1 1 1 1)%nat)
                "ckpt";
              Training.LogMessage Training.CheckpointSaving;
              Training.TorchSave
                (Training.checkpoint_dict 2 (Training.MkSnapshot 2 2 2 2 2 2 2)%nat)
                "ckpt";
              Training.LogMessage
                (Training.StillBetter 2 (Training.Finite (1 # 4))) ] _).
  vm_compute. reflexivity.
Defined.

(** ** The shape of an optimisation round *)

Section RoundTrace.
Import Training.
Context (train aug_train : DataLoader).
Context (retokenize : tensor_expr → array * array * array).
Context (cfg : config).

Lemma next_cls_trace (v : loop_vars) (b : Batch) (v' : loop_vars) :
  next_cls train v = Ok (b, v') → trace v' = trace v.
Proof.
  unfold next_cls. intros H. destruct (cls_train_iter v).
  - destruct (pass train (iter_calls v)); [discriminate|].
    injection H as _ <-. reflexivity.
  - injection H as _ <-. reflexivity.
Qed.

Lemma repeat_cls_trace (n : nat) :
  ∀ v v', repeat_n n (cls_micro_batch train cfg) v = Ok v' →
  ∃ bs, length bs = n ∧ trace v' = trace v ++ map (cls_backward cfg) bs.
Proof.
  induction n as [|n IH]; intros v v' Hrun; simpl in Hrun.
  - injection Hrun as <-. exists []. rewrite app_nil_r. auto.
  - bind_inv Hrun. unfold cls_micro_batch in Ha. bind_inv Ha.
    injection Ha as <-. destruct a0 as [b v1]. apply next_cls_trace in Ha0.
    destruct (IH _ _ Hrun) as (bs & Hlen & Htr). simpl in Htr.
    exists (b :: bs). split; [simpl; lia|].
    rewrite Htr, Ha0, <- app_assoc. reflexivity.
Qed.

Lemma repeat_aug_trace (n : nat) :
  ∀ v v', repeat_n n (aug_micro_batch aug_train retokenize cfg) v = Ok v' →
  ∃ ls, length ls = n ∧ trace v' = trace v ++ map Backward ls
        ∧ Forall (λ l, ∃ aug_b cls_b,
                    b_iter v = Some cls_b
                    ∧ l = total_loss_of retokenize cfg aug_b (b_sequence cls_b)) ls.
Proof.
  induction n as [|n IH]; intros v v' Hrun; simpl in Hrun.
  - injection Hrun as <-. exists []. rewrite app_nil_r. auto.
  - bind_inv Hrun. pose proof Ha as Hspec.
    apply aug_micro_batch_backward in Ha.
    destruct Ha as (aug_b & cls_b & _ & Hb & Htr1).
    apply aug_micro_batch_spec in Hspec. destruct Hspec as (Hsame & _).
    destruct (IH _ _ Hrun) as (ls & Hlen & Htr & Hall).
    exists (total_loss_of retokenize cfg aug_b (b_sequence cls_b) :: ls).
    split; [simpl; lia|]. split.
    + rewrite Htr, Htr1, <- app_assoc. reflexivity.
    + constructor; [eauto|]. rewrite Hsame in Hall. exact Hall.
Qed.

(** What one round appends to the trace. *)
Lemma round_trace (epoch : nat) (v v' : loop_vars) :
  round train aug_train retokenize cfg epoch v = Ok v' →
  ∃ bs ls,
    length bs = num_grad_accumulate cfg ∧ length ls = num_grad_accumulate cfg
    ∧ freq v' = S (freq v)
    ∧ trace v'
      = trace v ++ [ZeroGrad Cls] ++ map (cls_backward cfg) bs
        ++ [ScalerStep Cls; ScalerUpdate; SchedulerStep Cls; ZeroGrad Aug]
        ++ map Backward ls
        ++ [ScalerStep Aug; ScalerUpdate; SchedulerStep Aug]
        ++ (if Nat.eqb (Nat.modulo (freq v) (print_freq cfg)) 0 || finish_epoch v'
            then [WriteLog epoch (if Nat.eqb (freq v) 0 then 1%nat else freq v)]
            else [])
    ∧ Forall (λ l, ∃ aug_b src, l = total_loss_of retokenize cfg aug_b src) ls.
Proof.
  unfold round. intros Hrun. bind_inv Hrun. bind_inv Hrun. bind_inv Hrun.
  injection Hrun as <-.
  pose proof (repeat_cls_spec _ _ _ _ _ Ha) as (_ & _ & Hq1 & _).
  pose proof (repeat_aug_spec _ _ _ _ _ _ Ha0) as (Hq2 & _).
  apply repeat_cls_trace in Ha. destruct Ha as (bs & Hbs & Htr1).
  apply repeat_aug_trace in Ha0. destruct Ha0 as (ls & Hls & Htr2 & Hall).
  simpl in *.
  assert (Hfreq : freq a0 = freq v) by congruence.
  exists bs, ls. split; [exact Hbs|]. split; [exact Hls|].
  destruct (Nat.eqb (print_freq cfg) 0); [discriminate|].
  rewrite Hfreq in Ha1.
  destruct (Nat.eqb (freq v mod print_freq cfg) 0 || finish_epoch a0) eqn:Hlog;
    injection Ha1 as <-; simpl; rewrite ?Hlog, Hfreq.
  - split; [reflexivity|]. split.
    + rewrite Htr2, Htr1. rewrite <- !app_assoc. reflexivity.
    + eapply Forall_impl; [exact Hall|]. intros l (aug_b & cls_b & _ & ->). eauto.
  - split; [reflexivity|]. split.
    + rewrite Htr2, Htr1. rewrite <- !app_assoc. simpl. rewrite ?app_nil_r.
      reflexivity.
    + eapply Forall_impl; [exact Hall|]. intros l (aug_b & cls_b & _ & ->). eauto.
Qed.
End RoundTrace.

(** X9. Every round that completes runs exactly [num_grad_accumulate]
    classifier backward passes, then one classifier optimizer step, scaler
    update and scheduler step, then exactly [num_grad_accumulate]
    augmenter backward passes, then one augmenter optimizer step, scaler
    update and scheduler step. The classifier's losses go through the
    gradient scaler and are divided by [num_grad_accumulate]; the
    augmenter's are the plain three-term sums. *)
Theorem round_is_two_accumulated_steps
    (train aug_train : Training.DataLoader)
    (retokenize : Training.tensor_expr
                  → Training.array * Training.array * Training.array)
    (cfg : Training.config) (epoch : nat) (v v' : Training.loop_vars) :
  Training.round train aug_train retokenize cfg epoch v = Ok v' →
  ∃ (bs : list Training.Batch) (ls : list Training.loss)
    (log : list Training.event),
    length bs = Training.num_grad_accumulate cfg
    ∧ length ls = Training.num_grad_accumulate cfg
    ∧ Training.trace v'
      = Training.trace v ++ [Training.ZeroGrad Training.Cls]
        ++ map (Training.cls_backward cfg) bs
        ++ [Training.ScalerStep Training.Cls; Training.ScalerUpdate;
            Training.SchedulerStep Training.Cls; Training.ZeroGrad Training.Aug]
        ++ map Training.Backward ls
        ++ [Training.ScalerStep Training.Aug; Training.ScalerUpdate;
            Training.SchedulerStep Training.Aug]
        ++ log
    ∧ Forall (λ l, ∃ aug_b src,
                l = Training.Plus
                      (Training.Plus (Training.mmd_loss_of cfg aug_b)
                                     (Training.ce_loss_of cfg aug_b src))
                      (Training.new_loss_of retokenize cfg aug_b)) ls
    ∧ (log = [] ∨ ∃ n, log = [Training.WriteLog epoch n]).
Proof.
  intros Hrun. apply round_trace in Hrun.
  destruct Hrun as (bs & ls & Hbs & Hls & _ & Htr & Hall).
  exists bs, ls. eexists. split; [exact Hbs|]. split; [exact Hls|].
  split; [exact Htr|]. split; [exact Hall|].
  destruct (_ || _); eauto.
Qed.

Lemma round_is_two_accumulated_steps_witness :
  ∃ (bs : list Training.Batch) (ls : list Training.loss)
    (log : list Training.event),
    length bs = 1%nat ∧ length ls = 1%nat
    ∧ Training.trace
        (Training.set_freq 1
           (Training.emit
              [Training.ScalerStep Training.Aug; Training.ScalerUpdate;
               Training.SchedulerStep Training.Aug; Training.WriteLog 1 1]
              (Training.emit
                 [Training.Backward
                    (Training.total_loss_of Training.toy_retokenize
                       Training.toy_cfg Training.batch_y [[101; 7; 102]])]
                 (Training.MkVars [] [Training.batch_z] 2 false 0
                    (Some Training.batch_x) (Some Training.batch_y)
                    [Training.ZeroGrad Training.Cls;
                     Training.cls_backward Training.toy_cfg Training.batch_x;
                     Training.ScalerStep Training.Cls; Training.ScalerUpdate;
                     Training.SchedulerStep Training.Cls;
                     Training.ZeroGrad Training.Aug]))))
      = [] ++ [Training.ZeroGrad Training.Cls]
        ++ map (Training.cls_backward Training.toy_cfg) bs
        ++ [Training.ScalerStep Training.Cls; Training.ScalerUpdate;
            Training.SchedulerStep Training.Cls; Training.ZeroGrad Training.Aug]
        ++ map Training.Backward ls
        ++ [Training.ScalerStep Training.Aug; Training.ScalerUpdate;
            Training.SchedulerStep Training.Aug]
        ++ log
    ∧ Forall (λ l, ∃ aug_b src,
                l = Training.Plus
                      (Training.Plus (Training.mmd_loss_of Training.toy_cfg aug_b)
                                     (Training.ce_loss_of Training.toy_cfg aug_b src))
                      (Training.new_loss_of Training.toy_retokenize
                         Training.toy_cfg aug_b)) ls
    ∧ (log = [] ∨ ∃ n, log = [Training.WriteLog 1 n]).
Proof.
  refine (round_is_two_accumulated_steps Training.toy_train Training.toy_aug_train
            Training.toy_retokenize Training.toy_cfg 1
            (Training.initial_vars Training.toy_train Training.toy_aug_train)
            _ _).
  vm_compute. reflexivity.
Defined.

(** X10. A round that completes advances the round counter by one. It
    writes one progress line, as the last thing it does, exactly when the
    counter was a multiple of [print_freq] or the round ends the epoch;
    so the last round of an epoch is always logged. The line shows the
    counter, or 1 in the first round. *)
Theorem round_logging
    (train aug_train : Training.DataLoader)
    (retokenize : Training.tensor_expr
                  → Training.array * Training.array * Training.array)
    (cfg : Training.config) (epoch : nat) (v v' : Training.loop_vars) :
  Training.round train aug_train retokenize cfg epoch v = Ok v' →
  Training.freq v' = S (Training.freq v)
  ∧ (Nat.modulo (Training.freq v) (Training.print_freq cfg) = 0%nat
     ∨ Training.finish_epoch v' = true →
     last (Training.trace v')
     = Some (Training.WriteLog epoch
               (if Nat.eqb (Training.freq v) 0 then 1%nat else Training.freq v)))
  ∧ (Nat.modulo (Training.freq v) (Training.print_freq cfg) ≠ 0%nat →
     Training.finish_epoch v' = false →
     last (Training.trace v') = Some (Training.SchedulerStep Training.Aug)).
Proof.
  intros Hrun. apply round_trace in Hrun.
  destruct Hrun as (bs & ls & _ & _ & Hfreq & Htr & _).
  split; [exact Hfreq|]. rewrite Htr. rewrite !app_assoc. split.
  - intros Hcase.
    assert (Nat.eqb (Training.freq v mod Training.print_freq cfg) 0
            || Training.finish_epoch v' = true) as ->.
    { destruct Hcase as [->| ->]; [reflexivity|apply orb_true_r]. }
    apply last_snoc.
  - intros Hmod Hfin. rewrite Hfin.
    destruct (Nat.eqb_spec (Training.freq v mod Training.print_freq cfg) 0);
      [contradiction|].
    simpl. rewrite app_nil_r.
    change [Training.ScalerStep Training.Aug; Training.ScalerUpdate;
            Training.SchedulerStep Training.Aug]
      with ([Training.ScalerStep Training.Aug; Training.ScalerUpdate]
            ++ [Training.SchedulerStep Training.Aug]).
    rewrite app_assoc. apply last_snoc.
Qed.

Lemma round_logging_witness :
  Training.freq
    (Training.set_freq 1
       (Training.emit
          [Training.ScalerStep Training.Aug; Training.ScalerUpdate;
           Training.SchedulerStep Training.Aug; Training.WriteLog 1 1]
          (Training.emit
             [Training.Backward
                (Training.total_loss_of Training.toy_retokenize
                   Training.toy_cfg Training.batch_y [[101; 7; 102]])]
             (Training.MkVars [] [Training.batch_z] 2 false 0
                (Some Training.batch_x) (Some Training.batch_y)
                [Training.ZeroGrad Training.Cls;
                 Training.cls_backward Training.toy_cfg Training.batch_x;
                 Training.ScalerStep Training.Cls; Training.ScalerUpdate;
                 Training.SchedulerStep Training.Cls;
                 Training.ZeroGrad Training.Aug]))))
  = 1%nat.
Proof.
  refine (proj1 (round_logging Training.toy_train Training.toy_aug_train
                   Training.toy_retokenize Training.toy_cfg 1
                   (Training.initial_vars Training.toy_train Training.toy_aug_train)
                   _ _)).
  vm_compute. reflexivity.
Defined.

(** ** How many rounds an epoch takes *)

Section RoundCount.
Import Training.
Context (train aug_train : DataLoader).
Context (retokenize : tensor_expr → array * array * array).
Context (cfg : config).
Context (train_nonempty : ∀ n, pass train n ≠ []).
Context (aug_train_nonempty : ∀ n, pass aug_train n ≠ []).
Context (accumulate_pos : (0 < num_grad_accumulate cfg)%nat).
Context (print_freq_nonzero : print_freq cfg ≠ 0%nat).

#[local] Abbreviation loop_fn := (inner_loop train aug_train retokenize cfg).


End RoundCount.



(** ** The validation loops *)

Section ValidationFacts.
Import Validation.

Lemma add_times_tensor (n : nat) (t : term) :
  ∀ m, is_python_number (add_times (S n) t m) = false.
Proof.
  induction n as [|n IH]; intros m; [reflexivity|].
  change (add_times (S (S n)) t m) with (add_times (S n) t (Add m t)). apply IH.
Qed.

(** The augmenter's loop adds the terms of one and the same batch. *)
Lemma aug_valid_loop (p : list Training.Batch) :
  ∀ (v : vars) (a s : Training.Batch),
  aug_batch_iter v = Some a → src v = Some s →
  for_each aug_valid_step v p
  = Ok (MkVars (Some s) (Some a) (val_cls_loss v)
          (add_times (length p) (ReconAccOf s) (val_acc v))
          (add_times (length p) (CeOf s) (val_ce_loss v))
          (add_times (length p) (MmdOf s) (val_mmd_loss v))).
Proof.
  induction p as [|b p IH]; intros v a s Ha Hs.
  - simpl. destruct v. simpl in *. subst. reflexivity.
  - destruct v as [src0 aug0 l0 acc0 ce0 mmd0]. simpl in Ha, Hs. subst.
    simpl. rewrite (IH _ a s) by reflexivity. reflexivity.
Qed.

(** The classifier's loop leaves the last batch it drew in [src]. *)
Lemma cls_valid_loop (p : list Training.Batch) :
  ∀ (v : vars),
  ∃ v', for_each cls_valid_step v p = Ok v'
        ∧ src v' = match last p with Some b => Some b | None => src v end
        ∧ aug_batch_iter v' = aug_batch_iter v
        ∧ val_ce_loss v' = val_ce_loss v ∧ val_mmd_loss v' = val_mmd_loss v
        ∧ (p ≠ [] → is_python_number (val_cls_loss v') = false
                    ∧ is_python_number (val_acc v') = false).
Proof.
  induction p as [|b p IH]; intros v.
  - exists v. simpl. do 5 (split; [reflexivity|]). intros Hp. contradiction.
  - simpl.
    destruct (IH (MkVars (Some b) (aug_batch_iter v)
                    (Add (val_cls_loss v) (ClsLossOf b))
                    (Add (val_acc v) (ClsAccOf b))
                    (val_ce_loss v) (val_mmd_loss v)))
      as (v' & Hrun & Hsrc & Ha & Hce & Hmmd & Hnum).
    exists v'. split; [exact Hrun|]. simpl in *. split.
    { rewrite Hsrc. destruct p as [|b' p']; [reflexivity|].
      simpl. destruct (last (b' :: p')) eqn:E; [reflexivity|].
      apply last_None in E. discriminate. }
    repeat split; auto.
    + destruct p as [|b' p']; [|apply Hnum; discriminate].
      simpl in Hrun. injection Hrun as <-. reflexivity.
    + destruct p as [|b' p']; [|apply Hnum; discriminate].
      simpl in Hrun. injection Hrun as <-. reflexivity.
Qed.

(** The augmenter's validation loop over a non-empty loader, with
    [aug_batch_iter] and [src_sequence] bound. *)
Lemma augmenter_validation_run
    (q : list Training.Batch) (v : Validation.vars) (a s : Training.Batch) :
  Validation.aug_batch_iter v = Some a → Validation.src v = Some s →
  q ≠ [] →
  Validation.augmenter_validation q v
  = Ok (Validation.MkVars (Some s) (Some a) (Validation.val_cls_loss v)
          (Validation.Over
             (Validation.add_times (length q) (Validation.ReconAccOf s)
                (Validation.val_acc v)) (length q))
          (Validation.Over
             (Validation.add_times (length q) (Validation.CeOf s)
                (Validation.val_ce_loss v)) (length q))
          (Validation.Over
             (Validation.add_times (length q) (Validation.MmdOf s)
                (Validation.val_mmd_loss v)) (length q))).
Proof.
  intros Ha Hs Hne. unfold Validation.augmenter_validation.
  rewrite (aug_valid_loop q v a s Ha Hs). simpl.
  destruct q as [|b q0]; [contradiction|]. simpl length.
  unfold Validation.divide. rewrite !add_times_tensor. reflexivity.
Qed.
End ValidationFacts.

(** X12. The augmenter's validation loop does not look at the batches it
    draws. With [aug_batch_iter] and [src_sequence] bound, its three
    results are the terms of the one batch [src_sequence] comes from,
    added once per batch drawn and divided by the number of batches; two
    loaders that yield the same number of batches give the same
    results. *)
Theorem augmenter_validation_ignores_its_batches
    (p p' : list Training.Batch) (v : Validation.vars) (a s : Training.Batch) :
  Validation.aug_batch_iter v = Some a → Validation.src v = Some s →
  p ≠ [] → length p' = length p →
  Validation.augmenter_validation p v
  = Ok (Validation.MkVars (Some s) (Some a) (Validation.val_cls_loss v)
          (Validation.Over
             (Validation.add_times (length p) (Validation.ReconAccOf s)
                (Validation.val_acc v)) (length p))
          (Validation.Over
             (Validation.add_times (length p) (Validation.CeOf s)
                (Validation.val_ce_loss v)) (length p))
          (Validation.Over
             (Validation.add_times (length p) (Validation.MmdOf s)
                (Validation.val_mmd_loss v)) (length p)))
  ∧ Validation.augmenter_validation p' v = Validation.augmenter_validation p v.
Proof.
  intros Ha Hs Hne Hlen.
  assert (Hrun : ∀ q, length q = length p →
    Validation.augmenter_validation q v
    = Ok (Validation.MkVars (Some s) (Some a) (Validation.val_cls_loss v)
            (Validation.Over
               (Validation.add_times (length p) (Validation.ReconAccOf s)
                  (Validation.val_acc v)) (length p))
            (Validation.Over
               (Validation.add_times (length p) (Validation.CeOf s)
                  (Validation.val_ce_loss v)) (length p))
            (Validation.Over
               (Validation.add_times (length p) (Validation.MmdOf s)
                  (Validation.val_mmd_loss v)) (length p)))).
  { intros q Hq. unfold Validation.augmenter_validation.
    rewrite (aug_valid_loop q v a s Ha Hs). simpl. rewrite Hq.
    destruct p as [|b p0]; [contradiction|]. simpl length.
    unfold Validation.divide. rewrite !add_times_tensor. reflexivity. }
  split; [apply Hrun; reflexivity|].
  rewrite (Hrun p' Hlen), (Hrun p eq_refl). reflexivity.
Qed.

Lemma augmenter_validation_ignores_its_batches_witness :
  Validation.augmenter_validation [Training.batch_z; Training.batch_x]
    (Validation.MkVars (Some Training.batch_x) (Some Training.batch_y)
       Validation.Int0 Validation.Int0 Validation.Int0 Validation.Int0)
  = Validation.augmenter_validation [Training.batch_y; Training.batch_z]
      (Validation.MkVars (Some Training.batch_x) (Some Training.batch_y)
         Validation.Int0 Validation.Int0 Validation.Int0 Validation.Int0).
Proof.
  refine (proj2 (augmenter_validation_ignores_its_batches
                   [Training.batch_y; Training.batch_z]
                   [Training.batch_z; Training.batch_x]
                   (Validation.MkVars (Some Training.batch_x) (Some Training.batch_y)
                      Validation.Int0 Validation.Int0 Validation.Int0 Validation.Int0)
                   Training.batch_y Training.batch_x _ _ _ _));
    (reflexivity || discriminate).
Defined.

(** X13. With [aug_batch_iter] bound, the validation phase completes
    exactly when both validation loaders yield at least one batch: an
    empty classifier loader, or an empty augmenter loader, makes the
    division by the loader's length raise [ZeroDivisionError]. *)
Theorem validation_needs_batches
    (valid aug_valid : list Training.Batch) (v : Validation.vars)
    (a : Training.Batch) :
  Validation.aug_batch_iter v = Some a →
  (is_ok (Validation.validation valid aug_valid v) = true
   ↔ valid ≠ [] ∧ aug_valid ≠ [])
  ∧ (valid = [] ∨ aug_valid = [] →
     Validation.validation valid aug_valid v = Raise ZeroDivisionError).
Proof.
  intros Ha.
  assert (Hempty : valid = [] →
            Validation.validation valid aug_valid v = Raise ZeroDivisionError).
  { intros ->. reflexivity. }
  assert (Hcls : valid ≠ [] →
    ∃ v1 b, Validation.classifier_validation valid (Validation.reset v) = Ok v1
            ∧ Validation.src v1 = Some b ∧ Validation.aug_batch_iter v1 = Some a
            ∧ Validation.val_ce_loss v1 = Validation.Int0
            ∧ Validation.val_mmd_loss v1 = Validation.Int0).
  { intros Hne. unfold Validation.classifier_validation.
    destruct (cls_valid_loop valid (Validation.reset v))
      as (v' & Hrun & Hsrc & Hab & Hce & Hmmd & Hnum).
    rewrite Hrun. simpl. destruct (Hnum Hne) as [Hn1 Hn2].
    unfold Validation.divide. rewrite Hn1, Hn2. simpl.
    destruct (last valid) as [b|] eqn:Hlast;
      [|apply last_None in Hlast; contradiction].
    eexists _, b. split; [reflexivity|]. simpl. rewrite Hab. auto. }
  assert (Haug : valid ≠ [] → aug_valid = [] →
            Validation.validation valid aug_valid v = Raise ZeroDivisionError).
  { intros Hne ->. unfold Validation.validation.
    destruct (Hcls Hne) as (v1 & b & -> & _ & _ & Hce & _). simpl.
    unfold Validation.augmenter_validation. simpl. rewrite Hce. reflexivity. }
  split.
  - split.
    + intros Hok. split; intros ->.
      * rewrite Hempty in Hok by reflexivity. discriminate.
      * destruct valid as [|b0 valid0]; [discriminate|].
        rewrite Haug in Hok by (discriminate || reflexivity). discriminate.
    + intros [Hv Hav]. unfold Validation.validation.
      destruct (Hcls Hv) as (v1 & b & -> & Hs & Hab & _). simpl.
      destruct aug_valid as [|b1 aug_valid1]; [contradiction|].
      rewrite (augmenter_validation_run (b1 :: aug_valid1) v1 a b Hab Hs
                 ltac:(discriminate)).
      reflexivity.
  - intros [Hv|Hav]; [apply Hempty; exact Hv|].
    destruct valid as [|b0 valid0]; [apply Hempty; reflexivity|].
    apply Haug; [discriminate|exact Hav].
Qed.

Lemma validation_needs_batches_witness :
  Validation.validation [Training.batch_x] []
    (Validation.MkVars (Some Training.batch_x) (Some Training.batch_y)
       Validation.Int0 Validation.Int0 Validation.Int0 Validation.Int0)
  = Raise ZeroDivisionError.
Proof.
  refine (proj2 (validation_needs_batches [Training.batch_x] []
                   (Validation.MkVars (Some Training.batch_x) (Some Training.batch_y)
                      Validation.Int0 Validation.Int0 Validation.Int0 Validation.Int0)
                   Training.batch_y _) _).
  - reflexivity.
  - right. reflexivity.
Defined.

(** ** [generate]: the shape of the beams *)

Section BeamShape.
Import Generate.
Context {score : Type} `{ops : ScoreOps score} {T : Type}.
Context (G : gmap string pyobj) (self : @model score T).
Context (hidden mask : T) (beam_size batch_size : nat).
Context (every_batch : list nat) (repetition_penalty : score).

#[local] Abbreviation step_fn :=
  (decode_step G self hidden mask beam_size batch_size every_batch
     repetition_penalty).
#[local] Abbreviation loop_fn :=
  (decode_loop G self hidden mask beam_size batch_size every_batch
     repetition_penalty).

Lemma view_flat_spec {A} (n : nat) (m : list (list A)) (l : list A) :
  view_flat n m = Ok l → l = concat m ∧ length l = n.
Proof.
  unfold view_flat. destruct (Nat.eqb_spec (length (concat m)) n); [|discriminate].
  intros H. injection H as <-. auto.
Qed.

(** A step that completes: every new sequence is a sequence of the state
    it started from with one token appended, and the step ends in
    [save_complete] on those sequences. *)
Lemma decode_step_extends (st st1 : @loop_state score) (step : nat) :
  step_fn st step = Ok st1 →
  ∃ (rows : list (list nat)) (next : list nat) (scores' : list score),
    Forall (λ row, row ∈ seqs st) rows
    ∧ length rows = length next
    ∧ length next = (beam_size * batch_size)%nat
    ∧ length scores' = (batch_size * beam_size)%nat
    ∧ save_complete (eos_idx self)
        (LoopState (zip_with (λ s w, s ++ [w]) rows next) scores'
           (scores_save st) (complete_seqs st) (complete_ind st) (Some next))
        next = Ok st1.
Proof.
  unfold decode_step. intros Hrun. do 11 bind_inv Hrun.
  apply view_flat_spec in Ha5. destruct Ha5 as [_ Hlen5].
  apply view_flat_spec in Ha8. destruct Ha8 as [_ Hlen8].
  apply collect_spec in Ha7. destruct Ha7 as (rows & -> & Hall).
  rewrite app_nil_l in Ha9, Hrun.
  destruct (Nat.eqb_spec (length rows) (length a8)) as [Hlen|_]; [|discriminate].
  exists rows, a8, a5. split.
  { clear - Hall. induction Hall as [|i row gi ri Hi _ IH]; constructor; [|exact IH].
    unfold index in Hi. destruct (seqs st !! i) eqn:E; [|discriminate].
    injection Hi as <-. eapply list_elem_of_lookup_2. exact E. }
  repeat split; assumption.
Qed.

Lemma zip_with_snoc_lookup (rows : list (list nat)) (next : list nat) (ix : nat)
    (s : list nat) :
  zip_with (λ s w, s ++ [w]) rows next !! ix = Some s →
  ∃ row w, rows !! ix = Some row ∧ next !! ix = Some w ∧ s = row ++ [w].
Proof.
  intros H. apply lookup_zip_with_Some in H. destruct H as (row & w & -> & Hr & Hw).
  eauto.
Qed.

(** One step keeps the beams well formed, with one more token. *)
Lemma decode_step_well_formed (st st1 : @loop_state score) (step len : nat) :
  step_fn st step = Ok st1 → (0 < len)%nat →
  Beam.well_formed (decoder_start_token_id self) (eos_idx self)
    (beam_size * batch_size) len st →
  Beam.well_formed (decoder_start_token_id self) (eos_idx self)
    (beam_size * batch_size) (S len) st1.
Proof.
  intros Hrun Hpos (Hn1 & Hn2 & Hn3 & Hseqs & Hcap).
  apply decode_step_extends in Hrun.
  destruct Hrun as (rows & next & scores' & Hrows & Hlen & Hnext & Hsc & Hsave).
  pose proof (save_complete_frame _ _ _ _ Hsave) as (Hq & Ht & _ & _ & Hss).
  simpl in Hq, Ht, Hss.
  assert (Hnew : Forall (λ s, length s = S len
                              ∧ head s = Some (decoder_start_token_id self))
                   (zip_with (λ s w, s ++ [w]) rows next)).
  { apply Forall_forall. intros s Hs. apply list_elem_of_lookup in Hs.
    destruct Hs as [ix Hix]. apply zip_with_snoc_lookup in Hix.
    destruct Hix as (row & w & Hrow & _ & ->).
    rewrite Forall_forall in Hrows, Hseqs.
    destruct (Hseqs row (Hrows row (list_elem_of_lookup_2 _ _ _ Hrow))) as [Hl Hh].
    rewrite length_app. simpl. split; [lia|].
    destruct row as [|t row']; [simpl in Hl; lia|exact Hh]. }
  unfold Beam.well_formed. rewrite Hq, Ht, Hss.
  split; [rewrite length_zip_with; lia|]. split; [lia|]. split; [exact Hn3|].
  split; [exact Hnew|].
  intros ix s Hs.
  destruct (decide (ix ∈ complete_ind st)) as [Hdone|Hnot].
  - destruct (save_complete_keeps _ _ _ _ _ Hsave Hdone) as [_ Hk]. simpl in Hk.
    rewrite Hk in Hs. destruct (Hcap ix s Hs) as (H1 & H2 & H3).
    repeat split; [exact H1|exact H2|lia].
  - destruct (next !! ix) as [w|] eqn:Hw.
    + destruct (decide (w = eos_idx self)) as [->|Hne].
      * destruct (save_complete_captures _ _ _ _ _ Hsave Hw Hnot) as (_ & _ & Hc).
        simpl in Hc. rewrite Hc in Hs. pose proof Hs as Hs'.
        apply zip_with_snoc_lookup in Hs'.
        destruct Hs' as (row & w' & _ & Hw' & ->).
        assert (w' = eos_idx self) as -> by congruence.
        rewrite Forall_forall in Hnew.
        destruct (Hnew _ (list_elem_of_lookup_2 _ _ _ Hs)) as [Hl Hh].
        split; [exact Hh|]. split; [apply last_snoc|lia].
      * assert (Hsame : complete_seqs st1 !! ix = complete_seqs st !! ix).
        { revert Hsave. unfold save_complete.
          destruct (bool_decide (eos_idx self ∈ next)); [|intros H; injection H as <-; reflexivity].
          simpl. intros Hsave. case_ltb Hsave.
          - bind_inv Hsave. bind_inv Hsave. injection Hsave as <-. simpl.
            eapply store_seqs_spec in Ha0. apply Ha0.
            rewrite elem_of_complete_ind_add. intros [He _]. congruence.
          - injection Hsave as <-. reflexivity. }
        rewrite Hsame in Hs. destruct (Hcap ix s Hs) as (H1 & H2 & H3).
        repeat split; [exact H1|exact H2|lia].
    + assert (Hsame : complete_seqs st1 !! ix = complete_seqs st !! ix).
      { revert Hsave. unfold save_complete.
        destruct (bool_decide (eos_idx self ∈ next)); [|intros H; injection H as <-; reflexivity].
        simpl. intros Hsave. case_ltb Hsave.
        - bind_inv Hsave. bind_inv Hsave. injection Hsave as <-. simpl.
          eapply store_seqs_spec in Ha0. apply Ha0.
          rewrite elem_of_complete_ind_add. intros [He _]. congruence.
        - injection Hsave as <-. reflexivity. }
      rewrite Hsame in Hs. destruct (Hcap ix s Hs) as (H1 & H2 & H3).
      repeat split; [exact H1|exact H2|lia].
Qed.

Lemma initial_state_well_formed :
  Beam.well_formed (decoder_start_token_id self) (eos_idx self)
    (beam_size * batch_size) 1 (initial_state self beam_size batch_size).
Proof.
  unfold Beam.well_formed, initial_state. simpl.
  rewrite !length_replicate. repeat split.
  - apply Forall_forall. intros s Hs. apply elem_of_replicate in Hs.
    destruct Hs as [-> _]. auto.
  - rewrite lookup_empty in H. discriminate.
  - rewrite lookup_empty in H. discriminate.
  - rewrite lookup_empty in H. discriminate.
Qed.

Lemma decode_loop_well_formed (steps : list nat) :
  ∀ (st st2 : @loop_state score) (len : nat),
  loop_fn st steps = Ok st2 → (0 < len)%nat →
  Beam.well_formed (decoder_start_token_id self) (eos_idx self)
    (beam_size * batch_size) len st →
  Beam.well_formed (decoder_start_token_id self) (eos_idx self)
    (beam_size * batch_size) (len + length steps) st2.
Proof.
  unfold decode_loop.
  induction steps as [|step steps IH]; intros st st2 len Hrun Hpos Hwf.
  - simpl in Hrun. injection Hrun as <-. rewrite Nat.add_0_r. exact Hwf.
  - simpl in Hrun. bind_inv Hrun.
    pose proof (decode_step_well_formed _ _ _ _ Ha Hpos Hwf) as Hwf1.
    pose proof (IH _ _ (S len) Hrun (Nat.lt_0_succ len) Hwf1) as Hwf2.
    simpl length. replace (len + S (length steps))%nat
      with (S len + length steps)%nat by lia. exact Hwf2.
Qed.
End BeamShape.

(** X14. Whatever the decoder's scores are, if the decoding loop completes
    [n] steps from the state [generate] starts with, the beams keep their
    shape: there are [beam_size * batch_size] live sequences, running
    scores and saved scores, and every live sequence has [n + 1] tokens and
    begins with the decoder start token; each step appends exactly one
    token to every slot. *)
Theorem live_sequences_grow_by_one
    {score : Type} `{ops : Generate.ScoreOps score} {T : Type}
    (G : gmap string Generate.pyobj) (self : @Generate.model score T)
    (hidden mask : T) (beam_size batch_size : nat) (every_batch : list nat)
    (repetition_penalty : score) (steps : list nat)
    (st2 : @Generate.loop_state score) :
  Generate.decode_loop G self hidden mask beam_size batch_size every_batch
    repetition_penalty (Generate.initial_state self beam_size batch_size) steps
  = Ok st2 →
  length (Generate.seqs st2) = (beam_size * batch_size)%nat
  ∧ length (Generate.top_k_scores st2) = (beam_size * batch_size)%nat
  ∧ length (Generate.scores_save st2) = (beam_size * batch_size)%nat
  ∧ Forall (λ s, length s = S (length steps)
                 ∧ head s = Some (Generate.decoder_start_token_id self))
      (Generate.seqs st2).
Proof.
  intros Hrun.
  pose proof (decode_loop_well_formed G self hidden mask beam_size batch_size
                every_batch repetition_penalty steps _ _ 1 Hrun Nat.lt_0_1
                (initial_state_well_formed self beam_size batch_size))
    as (H1 & H2 & H3 & H4 & _).
  auto.
Qed.

Lemma live_sequences_grow_by_one_witness :
  length (Generate.seqs Generate.toy_step2) = 4%nat
  ∧ length (Generate.top_k_scores Generate.toy_step2) = 4%nat
  ∧ length (Generate.scores_save Generate.toy_step2) = 4%nat
  ∧ Forall (λ s, length s = 4%nat ∧ head s = Some 1%nat)
      (Generate.seqs Generate.toy_step2).
Proof.
  refine (live_sequences_grow_by_one Generate.patched_globals
            (Generate.toy_model (-3) 3) tt tt 2 2 [0; 2]%nat (Generate.Fin 0)
            [0; 1; 2]%nat Generate.toy_step2 _).
  vm_compute. reflexivity.
Defined.

(** X15. Every sequence the decoding loop captures as complete begins with
    the decoder start token and ends with the end-of-sequence token, and
    after [n] steps it has at most [n + 1] tokens. *)
Theorem captured_sequences_end_with_eos
    {score : Type} `{ops : Generate.ScoreOps score} {T : Type}
    (G : gmap string Generate.pyobj) (self : @Generate.model score T)
    (hidden mask : T) (beam_size batch_size : nat) (every_batch : list nat)
    (repetition_penalty : score) (steps : list nat)
    (st2 : @Generate.loop_state score) (ix : nat) (s : list nat) :
  Generate.decode_loop G self hidden mask beam_size batch_size every_batch
    repetition_penalty (Generate.initial_state self beam_size batch_size) steps
  = Ok st2 →
  Generate.complete_seqs st2 !! ix = Some s →
  head s = Some (Generate.decoder_start_token_id self)
  ∧ last s = Some (Generate.eos_idx self)
  ∧ (length s <= S (length steps))%nat.
Proof.
  intros Hrun Hs.
  pose proof (decode_loop_well_formed G self hidden mask beam_size batch_size
                every_batch repetition_penalty steps _ _ 1 Hrun Nat.lt_0_1
                (initial_state_well_formed self beam_size batch_size))
    as (_ & _ & _ & _ & Hcap).
  exact (Hcap ix s Hs).
Qed.

Lemma captured_sequences_end_with_eos_witness :
  head [1; 3; 2]%nat = Some 1%nat
  ∧ last [1; 3; 2]%nat = Some 2%nat
  ∧ (length [1; 3; 2]%nat <= 4)%nat.
Proof.
  refine (captured_sequences_end_with_eos Generate.patched_globals
            (Generate.toy_model (-3) 3) tt tt 2 2 [0; 2]%nat (Generate.Fin 0)
            [0; 1; 2]%nat Generate.toy_step2 1 [1; 3; 2]%nat _ _).
  - vm_compute. reflexivity.
  - vm_compute. reflexivity.
Defined.

(** ** Inputs on which two claims fail as they are written *)

(** C5, counterexample. A token-id matrix of shape (2, 0) has no position
    0: the transform raises [IndexError] at line 276 instead of returning
    a shifted matrix. *)
Lemma shift_tokens_right_without_columns :
  Shift.wfb (Shift.Tensor 0 [[]; []]) = true
  ∧ Shift.shift_tokens_right (Shift.Tensor 0 [[]; []]) (Some 0) 9
    = Raise (IndexError "index 0 is out of bounds for dimension 1 with size 0").
Proof. split; reflexivity. Qed.


(** ** The checkpoint block *)

(** C9 (the code departs from it). A checkpoint holding the eight entries
    is written exactly when the validation loss is strictly below the
    recorded best. Otherwise nothing is written, but the message is logged
    only if a checkpoint was written earlier in the run: in the first
    epoch, a loss that is not below 1000 (here NaN) makes the block raise
    [UnboundLocalError] for [best_epoch]. And in a run on a non-empty
    augmenter loader the block is not reached at all: the augmentation
    pass before it raises [KeyError], so no checkpoint is written even
    though the loss 1/2 is below the best 1000. *)
Theorem checkpoint_block_outcomes :
  (∀ (file : string) (epoch : nat) (val : Training.float)
     (s : @Training.snapshot nat) (b : Training.best),
     Training.checkpoint_block file epoch val s b
     = if Training.float_ltb val (Training.value (Training.best_val_loss b))
       then Ok (Training.MkBest (Training.Tensor0 val) (Some epoch),
                [Training.LogMessage Training.CheckpointSaving;
                 Training.TorchSave (Training.checkpoint_dict epoch s) file])
       else match Training.best_epoch b, Training.best_val_loss b with
            | None, _ => Raise (UnboundLocalError "best_epoch")
            | Some e, Training.Tensor0 x =>
                Ok (b, [Training.LogMessage (Training.StillBetter e x)])
            | Some e, Training.PyFloat _ => Raise (AttributeError "item")
            end)
  ∧ (∀ (epoch : nat) (s : @Training.snapshot nat),
       dom (Training.checkpoint_dict epoch s)
       = list_to_set Resume.checkpoint_keys)
  ∧ Training.checkpoint_block "checkpoint.pth.tar" 1 Training.NaN
      (Training.MkSnapshot 10 20 30 40 50 60 70)%nat Training.initial_best
    = Raise (UnboundLocalError "best_epoch")
  ∧ Training.end_of_epoch Training.toy_aug_train Training.toy_retokenize 3
      (Some Training.batch_y) (Some Training.batch_x) Training.toy_corpus
      "checkpoint.pth.tar" 1 (Training.Finite (1 # 2))
      (Training.MkSnapshot 10 20 30 40 50 60 70)%nat Training.initial_best
    = Raise (KeyError "attetntion_mask")
  ∧ Training.float_ltb (Training.Finite (1 # 2))
      (Training.value (Training.best_val_loss Training.initial_best)) = true.
Proof.
  split; [|split; [|split; [|split]]].
  - intros file epoch val s b. unfold Training.checkpoint_block.
    destruct (Training.float_ltb _ _); [reflexivity|].
    destruct (Training.best_epoch b); [|reflexivity].
    destruct (Training.best_val_loss b); reflexivity.
  - intros epoch s. unfold Training.checkpoint_dict, Resume.checkpoint_keys.
    rewrite !dom_insert_L, dom_empty_L. simpl. set_solver.
  - reflexivity.
  - vm_compute. reflexivity.
  - reflexivity.
Qed.
